(** * trackmarks.core.spatial: optimal local reprojection and uncertainty ellipses

    A shallow embedding of [src/py/trackmarks/core/spatial.py].

    Conventions of the embedding.
    - A Python [float] is an exact rational ([Q]); [==] on floats is [Qeq].
      Rounding of IEEE arithmetic is not modelled.
    - A call that can raise returns a [result]; an exception is identified by
      the name of its class.
    - Every geometry handed back by [apply_geometry] is a new Python object:
      an [object] pairs the (immutable) geometry with its identity, drawn from
      an allocation counter that is threaded through the calls.
    - pyproj, shapely and the trigonometry of [math] are not part of the
      repository.  What is pure structure (the affine maps of
      [shapely.affinity], the coordinate-wise [shapely.ops.transform]) is
      written out; what is numeric library work (projection between frames,
      centroids, buffering, sine and cosine) is the interface [Library]. *)

From Stdlib Require Import ZArith QArith Qminmax Qround String List Lia Bool.
From Stdlib Require Import DecimalString DecimalPos DecimalZ.
Import ListNotations.
Open Scope Q_scope.

(** ** Python primitives *)

Module Py.

(** An exception, by class name. *)
Inductive exn : Type := Exception (cls : string).

Definition TypeError : exn := Exception "TypeError".

Inductive result (A : Type) : Type :=
| Ok (a : A)
| Raise (e : exn).
Arguments Ok {A} a.
Arguments Raise {A} e.

(** Computations over a mutable state [S] that may raise.  The state
    reached when an exception leaves the computation is kept. *)
Definition M (S A : Type) : Type := S -> result A * S.

Definition ret {S A} (a : A) : M S A := fun s => (Ok a, s).

Definition raise {S A} (e : exn) : M S A := fun s => (Raise e, s).

Definition bind {S A B} (m : M S A) (k : A -> M S B) : M S B :=
  fun s =>
    match m s with
    | (Ok a, s') => k a s'
    | (Raise e, s') => (Raise e, s')
    end.

(** An immutable value together with the identity ([id()]) of the Python
    object that holds it. *)
Record object (A : Type) : Type := { oid : nat; value : A }.
Arguments oid {A} o.
Arguments value {A} o.

(** Creating an object: the state counts the objects created so far. *)
Definition new {A} (a : A) : M nat (object A) :=
  fun n => (Ok {| oid := n; value := a |}, S n).

(** [a, b = v]: unpacking [None] raises TypeError. *)
Definition unpack {S A B} (v : option (A * B)) : M S (A * B) :=
  match v with
  | Some p => ret p
  | None => raise TypeError
  end.

(** [int(x)] on a float truncates toward zero. *)
Definition int (x : Q) : Z := Z.quot (Qnum x) (Zpos (Qden x)).

(** [str(n)] / [f"{n}"] on an integer. *)
Definition str (n : Z) : string := NilZero.string_of_int (Z.to_int n).

(** [a < b] on floats. *)
Definition lt (a b : Q) : bool := negb (Qle_bool b a).

End Py.

Import Py.

Declare Scope py_scope.
Delimit Scope py_scope with py.
Notation "x <- m ;; k" := (bind m (fun x => k))
  (at level 100, m at next level, right associativity) : py_scope.
Notation "' p <- m ;; k" := (bind m (fun p => k))
  (at level 100, p pattern, m at next level, right associativity) : py_scope.

(** ** pint: lengths with a unit *)

Module Units.

Inductive length_unit : Type := meter | nautical_mile.

(** Modelled from the spec: the unit registry [unit_reg] is created in
    [trackmarks/core/__init__.py], which is not among the sources.  The
    interface section of the specification fixes the one factor the code
    relies on: 1 nautical mile = 1852 meters exactly. *)
Definition meters_per (u : length_unit) : Q :=
  match u with
  | meter => 1
  | nautical_mile => 1852
  end.

Record Quantity : Type := { magnitude : Q; units : length_unit }.

(** [q.to(u)] *)
Definition to (u : length_unit) (q : Quantity) : Quantity :=
  {| magnitude := magnitude q * meters_per (units q) / meters_per u;
     units := u |}.

End Units.

Import Units.

(** ** pyproj: reference frames and transformers *)

Module Pyproj.

(** A CRS is identified with the definition it was built from. *)
Inductive CRS : Type :=
| from_epsg (code : Z)
| from_string (definition : string).

(** [crs == other]: two frames are equal iff they denote the same
    definition. *)
Definition CRS_eqb (a b : CRS) : bool :=
  match a, b with
  | from_epsg m, from_epsg n => Z.eqb m n
  | from_string s, from_string t => String.eqb s t
  | _, _ => false
  end.

(** [Transformer.from_crs(crs_from, crs_to, always_xy=...)] *)
Record Transformer : Type := from_crs
  { crs_from : CRS; crs_to : CRS; always_xy : bool }.

End Pyproj.

Import Pyproj.

(** ** shapely: geometries *)

Definition Coord : Type := (Q * Q)%type.

Inductive Geometry : Type :=
| Point (c : Coord)
| LineString (cs : list Coord)
| Polygon (shell : list Coord).

(** The numeric library routines the module calls. *)
Class Library : Type :=
  { (** [Transformer.from_crs(a, b, always_xy=xy).transform] on one
        coordinate pair *)
    project : CRS -> CRS -> bool -> Coord -> Coord;
    (** [geom.centroid], as coordinates *)
    geom_centroid : Geometry -> Coord;
    (** [geom.buffer(distance, resolution=resolution)] *)
    geom_buffer : Geometry -> Q -> Q -> Geometry;
    (** cosine and sine of an angle given in degrees, as
        [shapely.affinity.rotate] computes them *)
    cos_deg : Q -> Q;
    sin_deg : Q -> Q }.

Module Shapely.

Definition coords (g : Geometry) : list Coord :=
  match g with
  | Point c => [c]
  | LineString cs => cs
  | Polygon cs => cs
  end.

Definition map_coords (f : Coord -> Coord) (g : Geometry) : Geometry :=
  match g with
  | Point c => Point (f c)
  | LineString cs => LineString (map f cs)
  | Polygon cs => Polygon (map f cs)
  end.

(** [shapely.ops.transform(func, geom)]: [func] applied to every
    coordinate, the geometry type kept. *)
Definition transform (func : Coord -> Coord) (geom : Geometry) : Geometry :=
  map_coords func geom.

Definition is_empty (g : Geometry) : bool :=
  match coords g with
  | [] => true
  | _ :: _ => false
  end.

(** [geom.bounds]: (minx, miny, maxx, maxy) *)
Definition bounds (g : Geometry) : option (Q * Q * Q * Q) :=
  match coords g with
  | [] => None
  | (x, y) :: cs =>
      Some (fold_left (fun '(minx, miny, maxx, maxy) '(x, y) =>
                         (Qmin minx x, Qmin miny y, Qmax maxx x, Qmax maxy y))
                      cs (x, y, x, y))
  end.

(** The default [origin='center'] of [shapely.affinity]: the centre of the
    bounding box. *)
Definition center (g : Geometry) : Coord :=
  match bounds g with
  | None => (0, 0)
  | Some (minx, miny, maxx, maxy) => ((maxx + minx) / 2, (maxy + miny) / 2)
  end.

(** [shapely.affinity.affine_transform(geom, [a, b, d, e, xoff, yoff])] *)
Definition affine_transform (g : Geometry) (a b d e xoff yoff : Q)
  : Geometry :=
  map_coords (fun '(x, y) => (a * x + b * y + xoff, d * x + e * y + yoff)) g.

(** [shapely.affinity.scale(geom, xfact, yfact)] *)
Definition scale (g : Geometry) (xfact yfact : Q) : Geometry :=
  if is_empty g then g
  else
    let '(x0, y0) := center g in
    affine_transform g xfact 0 0 yfact (x0 - x0 * xfact) (y0 - y0 * yfact).

(** [shapely.affinity.rotate(geom, angle)]: [angle] in degrees; positive
    angles are counter-clockwise. *)
Definition rotate `{Library} (g : Geometry) (angle : Q) : Geometry :=
  if is_empty g then g
  else
    let cosp := cos_deg angle in
    let sinp := sin_deg angle in
    let '(x0, y0) := center g in
    affine_transform g cosp (- sinp) sinp cosp
      (x0 - x0 * cosp + y0 * sinp) (y0 - x0 * sinp - y0 * cosp).

(** [transformer.transform], the function handed to [transform] *)
Definition Transformer_transform `{Library} (t : Transformer)
  : Coord -> Coord :=
  project (crs_from t) (crs_to t) (always_xy t).

End Shapely.

(** ** spatial.py *)

Section Spatial.

Context `{L : Library}.

Definition DEFAULT_ELLIPSE_RESOLUTION : Q := 8.
Definition DEFAULT_ELLIPSE_ORIENTATION : Q := 0.
Definition DEFAULT_EPSG_CRS : Z := 4326.

(** *** class OptimalReprojector *)

Record OptimalReprojector : Type := { input_crs : CRS }.

(** [OptimalReprojector.__init__] *)
Definition OptimalReprojector_init (input_epsg : Z) : OptimalReprojector :=
  {| input_crs := from_epsg input_epsg |}.

(** The definition string built for a UTM zone. *)
Definition utm_definition (zone : Z) : string :=
  ("+proj=utm +zone=" ++ str zone
     ++ " +ellps=WGS84 +datum=WGS84 +units=m +no_defs")%string.

(** [OptimalReprojector._determine_optimal_crs]; the point is given by its
    [(x, y)] = (longitude, latitude). *)
Definition _determine_optimal_crs (point_4326 : Coord) : CRS :=
  let lon := fst point_4326 in
  let lat := snd point_4326 in
  if lt (-80) lat && lt lat 84 then
    let utm_crs :=
      from_string (utm_definition (int ((lon + 180) / 6) + 1)) in
    utm_crs
  else
    from_epsg 54032.

(** [OptimalReprojector.get_optimal_transformers]; Python's [None] is
    [None]. *)
Definition get_optimal_transformers
    (self : OptimalReprojector) (geom : Geometry)
  : option (Transformer * Transformer) :=
  let optimal_crs :=
    _determine_optimal_crs
      (match geom with
       | Point c => c
       | _ => geom_centroid geom
       end) in
  if CRS_eqb optimal_crs (input_crs self) then None
  else
    let to_transformer := from_crs (input_crs self) optimal_crs true in
    let return_transformer := from_crs optimal_crs (input_crs self) true in
    Some (to_transformer, return_transformer).

(** [OptimalReprojector.apply_geometry]; [func] already holds the extra
    arguments it is called with. *)
Definition apply_geometry
    (self : OptimalReprojector) (geom : Geometry)
    (func : Geometry -> Geometry)
  : M nat (object Geometry) :=
  ('(to_transformer, return_transformer) <-
     unpack (get_optimal_transformers self geom) ;;
   let transformed_geom :=
     Shapely.transform (Shapely.Transformer_transform to_transformer) geom in
   let transformed_geom := func transformed_geom in
   new (Shapely.transform
          (Shapely.Transformer_transform return_transformer)
          transformed_geom))%py.

(** *** class Ellipse *)

Record Ellipse : Type :=
  { centroid : Coord;
    semi_major : Quantity;
    semi_minor : Quantity;
    orientation : Q;
    _ellipse : option (object Geometry) }.

(** The dataclass constructor: [_ellipse] has [init=False], default
    [None]. *)
Definition Ellipse_init (centroid : Coord) (semi_major semi_minor : Quantity)
    (orientation : Q) : Ellipse :=
  {| centroid := centroid;
     semi_major := semi_major;
     semi_minor := semi_minor;
     orientation := orientation;
     _ellipse := None |}.

(** [self._ellipse = v] *)
Definition set__ellipse (self : Ellipse) (v : option (object Geometry))
  : Ellipse :=
  {| centroid := centroid self;
     semi_major := semi_major self;
     semi_minor := semi_minor self;
     orientation := orientation self;
     _ellipse := v |}.

(** [Ellipse._generate_utm_ellipse] *)
Definition _generate_utm_ellipse
    (centroid : Geometry) (semi_major semi_minor : Quantity)
    (orientation resolution : Q)
  : Geometry :=
  let major_meters := magnitude (to meter semi_major) in
  let minor_meters := magnitude (to meter semi_minor) in
  let ellipse :=
    Shapely.scale (geom_buffer centroid 1 resolution)
      major_meters minor_meters in
  if Qeq_bool orientation DEFAULT_ELLIPSE_ORIENTATION then ellipse
  else Shapely.rotate ellipse orientation.

(** The state an Ellipse method runs in: the Ellipse it is called on and
    the allocation counter. *)
Record World : Type := { self_ : Ellipse; allocated : nat }.

(** Running a computation that only creates objects. *)
Definition alloc {A} (m : M nat A) : M World A :=
  fun w =>
    let '(r, n) := m (allocated w) in
    (r, {| self_ := self_ w; allocated := n |}).

Definition get_self : M World Ellipse :=
  fun w => (Ok (self_ w), w).

Definition put_self (e : Ellipse) : M World unit :=
  fun w => (Ok tt, {| self_ := e; allocated := allocated w |}).

(** [Ellipse.generate_ellipse] *)
Definition generate_ellipse (resolution : Q) (cache : bool)
  : M World (object Geometry) :=
  (self <- get_self ;;
   let reprojector := OptimalReprojector_init DEFAULT_EPSG_CRS in
   ellipse <-
     alloc (apply_geometry reprojector (Point (centroid self))
              (fun g =>
                 _generate_utm_ellipse g (semi_major self) (semi_minor self)
                   (orientation self) resolution)) ;;
   _ <- (if cache then put_self (set__ellipse self (Some ellipse))
         else ret tt) ;;
   ret ellipse)%py.

(** The property [Ellipse.ellipse]; it returns whatever the slot holds
    after the optional generation, so its value is an [option]. *)
Definition ellipse : M World (option (object Geometry)) :=
  (self <- get_self ;;
   _ <- (match _ellipse self with
         | None =>
             _ <- generate_ellipse DEFAULT_ELLIPSE_RESOLUTION true ;; ret tt
         | Some _ => ret tt
         end) ;;
   self <- get_self ;;
   ret (_ellipse self))%py.

End Spatial.

(** ** Definitions that follow the specification's wording

    They are what the theorems compare the code with. *)

Section Specification.

Context `{L : Library}.

(** The representative anchor point of a geometry (Transformer Pair
    Builder): the geometry itself if it is a point, its centroid
    otherwise. *)
Definition anchor_point (geometry : Geometry) : Coord :=
  match geometry with
  | Point c => c
  | LineString _ => geom_centroid geometry
  | Polygon _ => geom_centroid geometry
  end.

(** The frame the builder resolves for a geometry. *)
Definition optimal_frame (geom : Geometry) : CRS :=
  _determine_optimal_crs (anchor_point geom).

(** The zone number of the CRS Resolver:
    floor((longitude + 180) / 6) + 1. *)
Definition utm_zone (longitude : Q) : Z :=
  (Qfloor ((longitude + 180) / 6) + 1)%Z.

(** The UTM frame of a zone, and the polar fallback frame. *)
Definition utm_frame (zone : Z) : CRS := from_string (utm_definition zone).

Definition world_azimuthal_equidistant : CRS := from_epsg 54032.

(** A distance converted to meters. *)
Definition in_meters (d : Quantity) : Q := magnitude (to meter d).

(** The Ellipse Constructor with the rotation step left out: unit buffer,
    then anisotropic scaling. *)
Definition scaled_unit_buffer (centroid : Geometry)
    (semi_major semi_minor : Quantity) (resolution : Q) : Geometry :=
  Shapely.scale (geom_buffer centroid 1 resolution)
    (in_meters semi_major) (in_meters semi_minor).

(** The Ellipse Constructor, step by step: resolve the local frame of the
    centroid, map the centroid forward, build the unit buffer, scale it,
    rotate it when the orientation is not zero, map every vertex back. *)
Definition construct_ellipse (e : Ellipse) (resolution : Q) : Geometry :=
  let wgs84 := from_epsg 4326 in
  let frame := _determine_optimal_crs (centroid e) in
  let local_centroid := Point (project wgs84 frame true (centroid e)) in
  let scaled :=
    scaled_unit_buffer local_centroid (semi_major e) (semi_minor e)
      resolution in
  let finished :=
    if Qeq_bool (orientation e) 0 then scaled
    else Shapely.rotate scaled (orientation e) in
  Shapely.map_coords (project frame wgs84 true) finished.

(** A rotation by [angle] degrees clockwise about the point [c]. *)
Definition rotate_clockwise_about (c : Coord) (g : Geometry) (angle : Q)
  : Geometry :=
  let '(cx, cy) := c in
  Shapely.map_coords
    (fun '(x, y) =>
       (cx + cos_deg angle * (x - cx) + sin_deg angle * (y - cy),
        cy - sin_deg angle * (x - cx) + cos_deg angle * (y - cy)))
    g.

(** The polygon an access of the property hands out, if any. *)
Definition returned_polygon
    (r : result (option (object Geometry)) * World) : option Geometry :=
  match fst r with
  | Ok (Some p) => Some (value p)
  | _ => None
  end.

(** A run of regenerations that are not persisted. *)
Fixpoint regenerate_unpersisted (resolutions : list Q) : M World unit :=
  match resolutions with
  | [] => ret tt
  | r :: rs =>
      (_ <- generate_ellipse r false ;; regenerate_unpersisted rs)%py
  end.

End Specification.

(** [v'] is [v] scaled by [xfact] along x and [yfact] along y about the
    point [o]. *)
Definition scaled_about (o : Coord) (xfact yfact : Q) (v v' : Coord) : Prop :=
  fst v' == fst o + xfact * (fst v - fst o)
  /\ snd v' == snd o + yfact * (snd v - snd o).

(** [v'] is [v] turned counter-clockwise about the point [o] by the angle
    whose cosine and sine are [cosp] and [sinp] (x to the east, y to the
    north). *)
Definition turned_about (o : Coord) (cosp sinp : Q) (v v' : Coord) : Prop :=
  fst v' == fst o + cosp * (fst v - fst o) - sinp * (snd v - snd o)
  /\ snd v' == snd o + sinp * (fst v - fst o) + cosp * (snd v - snd o).

(** The slot, when filled, holds an object that exists: its identity was
    handed out before. *)
Definition World_ok (w : World) : Prop :=
  forall q, _ellipse (self_ w) = Some q -> (oid q < allocated w)%nat.

(** Coordinates are compared as numbers, geometries vertex by vertex. *)
Definition Coord_eqb (a b : Coord) : bool :=
  Qeq_bool (fst a) (fst b) && Qeq_bool (snd a) (snd b).

Fixpoint Coords_eqb (a b : list Coord) : bool :=
  match a, b with
  | [], [] => true
  | x :: a', y :: b' => Coord_eqb x y && Coords_eqb a' b'
  | _, _ => false
  end.

Definition Geometry_eqb (a b : Geometry) : bool :=
  match a, b with
  | Point c, Point d => Coord_eqb c d
  | LineString cs, LineString ds => Coords_eqb cs ds
  | Polygon cs, Polygon ds => Coords_eqb cs ds
  | _, _ => false
  end.

(** ** An instance to run the definitions on

    Exact where exact rational values exist: cosine and sine at the
    quarter turns (any other angle is read as the quarter turn below it), and
    the buffer of a point at one segment per quarter, which is the ring of
    the four axis points, clockwise from +x and closed (the instance returns
    it at every resolution).  Centroids are bounding-box centres, projection
    is a plain change of scale between degrees and meters.  The theorems
    hold for every [Library]; the instance only serves to evaluate them. *)

Definition quarter_turns (angle : Q) : Z := Qfloor (angle / 90) mod 4.

#[local] Instance axis_library : Library :=
  {| project := fun src dst _ '(x, y) =>
       match dst with
       | from_epsg 4326 => (x / 100000, y / 100000)
       | _ => (x * 100000, y * 100000)
       end;
     geom_centroid := fun g => Shapely.center g;
     geom_buffer := fun g distance _ =>
       let '(x, y) := Shapely.center g in
       Polygon [(x + distance, y); (x, y - distance); (x - distance, y);
                (x, y + distance); (x + distance, y)];
     cos_deg := fun angle =>
       match quarter_turns angle with
       | 0%Z => 1 | 2%Z => -1 | _ => 0
       end;
     sin_deg := fun angle =>
       match quarter_turns angle with
       | 1%Z => 1 | 3%Z => -1 | _ => 0
       end |}.

(** The test's ellipse near Atlanta. *)
Definition atlanta : Ellipse :=
  Ellipse_init (-84.39, 33.75)
    {| magnitude := 2; units := nautical_mile |}
    {| magnitude := 1; units := nautical_mile |}
    10.

(** * The rest of the code

    What follows embeds the functions the sections above leave out:
    [OptimalReprojector.apply_geodataframe] of spatial.py, and the route
    and trajectory code of [trackmarks/mock]. *)

(** ** More Python primitives *)

Module Builtins.

Definition KeyError : exn := Exception "KeyError".
Definition IndexError : exn := Exception "IndexError".
Definition ValueError : exn := Exception "ValueError".

(** Code that neither reads nor writes state: a [result], with its bind. *)
Definition rbind {A B} (r : result A) (k : A -> result B) : result B :=
  match r with
  | Ok a => k a
  | Raise e => Raise e
  end.

(** [d[k]] on a dict: KeyError when the key is missing. *)
Definition getitem {K V} (d : K -> option V) (k : K) : result V :=
  match d k with
  | Some v => Ok v
  | None => Raise KeyError
  end.

(** [d[k]] where [d] is an attribute dict of which a record keeps the keys
    the code reads. *)
Definition getattr {V} (field : option V) : result V :=
  match field with
  | Some v => Ok v
  | None => Raise KeyError
  end.

(** [d.get(k, default)] *)
Definition get_default {V} (field : option V) (default : V) : V :=
  match field with
  | Some v => v
  | None => default
  end.

(** [l[i]] on a list: a negative index counts from the end, an index out of
    range raises IndexError. *)
Definition list_getitem {A} (l : list A) (i : Z) : result A :=
  let n := Z.of_nat (List.length l) in
  let j := if (i <? 0)%Z then (i + n)%Z else i in
  if (j <? 0)%Z then Raise IndexError
  else
    match nth_error l (Z.to_nat j) with
    | Some a => Ok a
    | None => Raise IndexError
    end.

(** [sum(xs)]: from 0, left to right. *)
Definition sum (xs : list Q) : Q := fold_left Qplus xs 0.

End Builtins.

Declare Scope result_scope.
Delimit Scope result_scope with result.
Notation "x <- m ;; k" := (Builtins.rbind m (fun x => k))
  (at level 100, m at next level, right associativity) : result_scope.

(** ** spatial.py: the batch variant *)

Module GeoFrame.

Section Frame.

Context `{L : Library}.

(** The columns of a row other than the geometry. *)
Variable A : Type.

(** A row of a GeoDataFrame: its geometry object and the other columns. *)
Record Row : Type := { geometry : object Geometry; columns : A }.

(** [gdf.apply(lambda x: self.apply_geometry(x.geometry, func, ...),
    axis=1)]: the function is called on the rows in order, and the first
    exception ends the call. *)
Fixpoint apply_rows (self : OptimalReprojector) (func : Geometry -> Geometry)
    (rows : list Row) : M nat (list (object Geometry)) :=
  match rows with
  | [] => ret []
  | r :: rs =>
      (g <- apply_geometry self (value (geometry r)) func ;;
       gs <- apply_rows self func rs ;;
       ret (g :: gs))%py
  end.

(** [gdf['geometry'] = column]: the rows keep their index, every row takes
    the new geometry at its position. *)
Fixpoint set_geometry (rows : list Row) (column : list (object Geometry))
  : list Row :=
  match rows, column with
  | r :: rs, g :: gs =>
      {| geometry := g; columns := columns r |} :: set_geometry rs gs
  | _, _ => rows
  end.

(** The frame a call works on (it is modified in place) and the allocation
    counter. *)
Record FrameWorld : Type := { gdf : list Row; created : nat }.

(** [OptimalReprojector.apply_geodataframe]; the frame returned is the
    argument itself, so the value is its rows after the assignment.  The
    column is assigned only after [apply] has returned.  What pandas does
    with a frame that has no row is not modelled: the embedding hands such a
    frame back as it is, and nothing below is stated about it. *)
Definition apply_geodataframe (self : OptimalReprojector)
    (func : Geometry -> Geometry) : M FrameWorld (list Row) :=
  fun w =>
    match apply_rows self func (gdf w) (created w) with
    | (Ok column, n) =>
        let rows := set_geometry (gdf w) column in
        (Ok rows, {| gdf := rows; created := n |})
    | (Raise e, n) => (Raise e, {| gdf := gdf w; created := n |})
    end.

End Frame.

End GeoFrame.

(** ** networkx and osmnx: the road graph *)

Module Networkx.

Definition Node : Type := Z.

(** The attribute dict of an edge, reduced to the keys the code reads. *)
Record EdgeData : Type :=
  { attr_length : option Q;
    attr_name : option string;
    attr_highway : option string }.

(** The attribute dict of a node, reduced to the keys the code reads. *)
Record NodeData : Type := { attr_x : option Q; attr_y : option Q }.

(** A MultiDiGraph as the code reads it: [G[u][v][key]] and [G.nodes[n]].
    The code never modifies the graph. *)
Record MultiDiGraph : Type :=
  { adj : Node -> option (Node -> option (Z -> option EdgeData));
    nodes : Node -> option NodeData }.

(** The routines of osmnx and networkx the code calls. *)
Class Routing : Type :=
  { (** [ox.distance.nearest_nodes(G, X, Y)] *)
    nearest_nodes : MultiDiGraph -> Q -> Q -> Node;
    (** [nx.shortest_path(G, source, target, weight=weight)]; [None] stands
        for the exception NetworkXNoPath *)
    shortest_path :
      MultiDiGraph -> Node -> Node -> string -> option (list Node);
    (** [ox.graph_from_place(place_name, network_type='drive')] *)
    graph_from_place : string -> MultiDiGraph;
    (** [ox.graph_from_bbox(bbox=bbox, network_type='drive')] *)
    graph_from_bbox : Q * Q * Q * Q -> MultiDiGraph;
    (** [ox.graph_from_point(center_point, dist=distance,
        network_type='drive')] *)
    graph_from_point : Q * Q -> Q -> MultiDiGraph;
    (** [ox.project_graph(G)] *)
    project_graph : MultiDiGraph -> MultiDiGraph }.

End Networkx.

(** ** mock/osm2graph.py *)

Module Osm2graph.

Import Builtins Networkx.

Section ShortestPath.

Context `{R : Routing}.

(** [G[u][v][0]] *)
Definition edge_data (G : MultiDiGraph) (u v : Node) : result EdgeData :=
  (a <- getitem (adj G) u ;;
   b <- getitem a v ;;
   getitem b 0%Z)%result.

(** [G[u][v][0]['length']] *)
Definition edge_length (G : MultiDiGraph) (u v : Node) : result Q :=
  (e <- edge_data G u v ;; getattr (attr_length e))%result.

(** [(G.nodes[n]['y'], G.nodes[n]['x'])] *)
Definition node_coords (G : MultiDiGraph) (n : Node) : result (Q * Q) :=
  (d <- getitem (nodes G) n ;;
   y <- getattr (attr_y d) ;;
   x <- getattr (attr_x d) ;;
   Ok (y, x))%result.

Record ShortestPathGenerator : Type := { G : MultiDiGraph }.

(** [ShortestPathGenerator.__init__]: the arguments are tested for truth,
    so an empty name, an absent box and a distance of zero do not count. *)
Definition ShortestPathGenerator_init
    (place_name : option string) (bbox : option (Q * Q * Q * Q))
    (distance : option Q) (center_point : option (Q * Q))
  : result ShortestPathGenerator :=
  match place_name, bbox, distance, center_point with
  | Some (String c s), _, _, _ =>
      Ok {| G := graph_from_place (String c s) |}
  | _, Some box, _, _ => Ok {| G := graph_from_bbox box |}
  | _, _, Some d, Some center =>
      if Qeq_bool d 0 then Raise ValueError
      else Ok {| G := graph_from_point center d |}
  | _, _, _, _ => Raise ValueError
  end.

(** [ShortestPathGenerator.get_nearest_node]; the message it prints reads
    [node_data['y']] and [node_data['x']]. *)
Definition get_nearest_node (self : ShortestPathGenerator) (lat lon : Q)
  : result Node :=
  let node := nearest_nodes (G self) lon lat in
  (node_data <- getitem (nodes (G self)) node ;;
   _ <- getattr (attr_y node_data) ;;
   _ <- getattr (attr_x node_data) ;;
   Ok node)%result.

(** [G[route[i]][route[i + 1]][0]['length'] for i in range(len(route) - 1)] *)
Fixpoint edge_lengths (G : MultiDiGraph) (route : list Node)
  : result (list Q) :=
  match route with
  | u :: (v :: _) as rest =>
      (l <- edge_length G u v ;;
       ls <- edge_lengths G rest ;;
       Ok (l :: ls))%result
  | _ => Ok []
  end.

(** [[(route[i], route[i + 1]) for i in range(len(route) - 1)]] *)
Fixpoint route_pairs (route : list Node) : list (Node * Node) :=
  match route with
  | u :: (v :: _) as rest => (u, v) :: route_pairs rest
  | _ => []
  end.

(** [[(G.nodes[node]['y'], G.nodes[node]['x']) for node in route]] *)
Fixpoint coords_of (G : MultiDiGraph) (route : list Node)
  : result (list (Q * Q)) :=
  match route with
  | [] => Ok []
  | n :: rest =>
      (c <- node_coords G n ;;
       cs <- coords_of G rest ;;
       Ok (c :: cs))%result
  end.

(** The dict [calculate_shortest_path] returns. *)
Record PathResults : Type :=
  { origin_node : Node;
    dest_node : Node;
    origin_coords : Q * Q;
    dest_coords : Q * Q;
    route_nodes : list Node;
    route_edges : list (Node * Node);
    route_coords : list (Q * Q);
    distance_meters : Q;
    distance_km : Q;
    num_nodes : Z;
    num_edges : Z }.

(** [ShortestPathGenerator.calculate_shortest_path]; Python's [None] is
    [None]. *)
Definition calculate_shortest_path (self : ShortestPathGenerator)
    (origin_coords dest_coords : Q * Q) (weight : string)
  : result (option PathResults) :=
  (origin_node <-
     get_nearest_node self (fst origin_coords) (snd origin_coords) ;;
   dest_node <- get_nearest_node self (fst dest_coords) (snd dest_coords) ;;
   match shortest_path (G self) origin_node dest_node weight with
   | None => Ok None
   | Some route =>
       lengths <- edge_lengths (G self) route ;;
       let path_length := sum lengths in
       let route_edges := route_pairs route in
       path_coords <- coords_of (G self) route ;;
       Ok (Some
             {| origin_node := origin_node;
                dest_node := dest_node;
                origin_coords := origin_coords;
                dest_coords := dest_coords;
                route_nodes := route;
                route_edges := route_edges;
                route_coords := path_coords;
                distance_meters := path_length;
                distance_km := path_length / 1000;
                num_nodes := Z.of_nat (List.length route);
                num_edges := Z.of_nat (List.length route_edges) |})
   end)%result.

(** An entry of the list [get_route_details] returns. *)
Record Segment : Type :=
  { segment : Z;
    from_node : Node;
    to_node : Node;
    from_coords : Q * Q;
    to_coords : Q * Q;
    length_m : Q;
    length_km : Q;
    street_name : string;
    highway_type : string }.

(** The loop of [get_route_details], from the segment with index [i]. *)
Fixpoint segments_from (G : MultiDiGraph) (i : Z) (route : list Node)
  : result (list Segment) :=
  match route with
  | u :: (v :: _) as rest =>
      (edge <- edge_data G u v ;;
       from_coords <- node_coords G u ;;
       to_coords <- node_coords G v ;;
       length_m <- getattr (attr_length edge) ;;
       let seg :=
         {| segment := (i + 1)%Z;
            from_node := u;
            to_node := v;
            from_coords := from_coords;
            to_coords := to_coords;
            length_m := length_m;
            length_km := length_m / 1000;
            street_name := get_default (attr_name edge) "Unnamed"%string;
            highway_type := get_default (attr_highway edge) "Unknown"%string |} in
       segs <- segments_from G (i + 1)%Z rest ;;
       Ok (seg :: segs))%result
  | _ => Ok []
  end.

(** [ShortestPathGenerator.get_route_details] *)
Definition get_route_details (self : ShortestPathGenerator)
    (path_results : option PathResults)
  : result (option (list Segment)) :=
  match path_results with
  | None => Ok None
  | Some results =>
      (segments <- segments_from (G self) 0%Z (route_nodes results) ;;
       Ok (Some segments))%result
  end.

End ShortestPath.

End Osm2graph.

(** ** mock/mockTrackGenerator.py *)

Module MockTrackGenerator.

Import Builtins Networkx.

(** The module [random]: the generator has one state, so the value of a call
    is determined by how many calls were made before it and by its
    arguments. *)
Class Random : Type :=
  { (** [random.gauss(mu, sigma)] as the call number [k] *)
    gauss : nat -> Q -> Q -> Q;
    (** [random.uniform(a, b)] as the call number [k] *)
    uniform : nat -> Q -> Q -> Q }.

(** [np.searchsorted(a, v)] (side 'left') on a list [a] in ascending order:
    the first index whose element is not below [v], [len(a)] if there is
    none.  numpy finds the index by bisection; on a list that is not in
    ascending order its answer is not specified, and this definition is not
    meant for one. *)
Fixpoint searchsorted (a : list Q) (v : Q) : Z :=
  match a with
  | [] => 0%Z
  | x :: a' => if lt x v then (1 + searchsorted a' v)%Z else 0%Z
  end.

Section Generator.

Context `{R : Routing} `{Rnd : Random}.

Record VehicleTrajectoryGenerator : Type :=
  { G : MultiDiGraph; G_proj : MultiDiGraph }.

(** [VehicleTrajectoryGenerator.__init__]: the arguments are tested against
    [None], the graph first. *)
Definition VehicleTrajectoryGenerator_init
    (place_name : option string) (graph : option MultiDiGraph)
  : result VehicleTrajectoryGenerator :=
  match graph, place_name with
  | Some g, _ => Ok {| G := g; G_proj := project_graph g |}
  | None, Some name =>
      let g := graph_from_place name in
      Ok {| G := g; G_proj := project_graph g |}
  | None, None => Raise ValueError
  end.

(** [VehicleTrajectoryGenerator.get_nearest_node] *)
Definition get_nearest_node (self : VehicleTrajectoryGenerator) (lat lon : Q)
  : Node :=
  nearest_nodes (G self) lon lat.

(** The loop of [_calculate_path_distances]; [last] is [distances[-1]]. *)
Fixpoint path_distances_from (G : MultiDiGraph) (last : Q) (path : list Node)
  : result (list Q) :=
  match path with
  | u :: (v :: _) as rest =>
      (edge_data <- Osm2graph.edge_data G u v ;;
       length <- getattr (attr_length edge_data) ;;
       distances <- path_distances_from G (last + length) rest ;;
       Ok ((last + length) :: distances))%result
  | _ => Ok []
  end.

(** [VehicleTrajectoryGenerator._calculate_path_distances] *)
Definition _calculate_path_distances (self : VehicleTrajectoryGenerator)
    (path : list Node) : result (list Q) :=
  (distances <- path_distances_from (G self) 0 path ;;
   Ok (0 :: distances))%result.

(** A row of the frame a trajectory is returned as.  Times are in seconds;
    [timedelta(minutes=m)] is [60 * m] seconds. *)
Record GpsRecord : Type :=
  { vehicle_id : Z;
    lat : Q;
    lng : Q;
    datetime : Q;
    velocity_kmh : Q }.

(** The variables of the loop of [_generate_single_trajectory], and the
    number of calls made to [random] so far. *)
Record LoopState : Type :=
  { records : list GpsRecord;
    current_time : Q;
    current_distance : Q;
    travel_time_minutes : Q;
    calls : nat }.

(** [self.G.nodes[node]['y']] and [self.G.nodes[node]['x']] *)
Definition node_y (G : MultiDiGraph) (node : Node) : result Q :=
  (d <- getitem (nodes G) node ;; getattr (attr_y d))%result.

Definition node_x (G : MultiDiGraph) (node : Node) : result Q :=
  (d <- getitem (nodes G) node ;; getattr (attr_x d))%result.

(** The position on the path at [current_distance], before the noise. *)
Definition position (self : VehicleTrajectoryGenerator)
    (path : list Node) (path_distances : list Q) (current_distance : Q)
  : result (Q * Q) :=
  let len_path := Z.of_nat (List.length path) in
  let node_idx := searchsorted path_distances current_distance in
  let node_idx :=
    if (len_path <=? node_idx)%Z then (len_path - 1)%Z else node_idx in
  if ((0 <? node_idx) && (node_idx <? len_path))%Z then
    (prev_dist <- list_getitem path_distances (node_idx - 1) ;;
     next_dist <- list_getitem path_distances node_idx ;;
     let ratio :=
       if lt prev_dist next_dist then
         (current_distance - prev_dist) / (next_dist - prev_dist)
       else 0 in
     prev_node <- list_getitem path (node_idx - 1) ;;
     next_node <- list_getitem path node_idx ;;
     prev_lat <- node_y (G self) prev_node ;;
     prev_lon <- node_x (G self) prev_node ;;
     next_lat <- node_y (G self) next_node ;;
     next_lon <- node_x (G self) next_node ;;
     Ok (prev_lat + ratio * (next_lat - prev_lat),
         prev_lon + ratio * (next_lon - prev_lon)))%result
  else
    (node <- list_getitem path node_idx ;;
     lat <- node_y (G self) node ;;
     lon <- node_x (G self) node ;;
     Ok (lat, lon))%result.

(** One pass through the body of the [while] loop. *)
Definition loop_body (self : VehicleTrajectoryGenerator)
    (vehicle_id : Z) (path : list Node) (path_distances : list Q)
    (velocity_ms max_travel_duration rest_duration sample_interval : Q)
    (st : LoopState) : result LoopState :=
  let rested := Qle_bool max_travel_duration (travel_time_minutes st) in
  let current_time :=
    if rested then current_time st + 60 * rest_duration
    else current_time st in
  let travel_time_minutes :=
    if rested then 0 else travel_time_minutes st in
  (p <- position self path path_distances (current_distance st) ;;
   let lat := fst p + gauss (calls st) 0 0.00001 in
   let lon := snd p + gauss (S (calls st)) 0 0.00001 in
   let velocity_variation := uniform (S (S (calls st))) 0.7 1.3 in
   let actual_velocity := velocity_ms * velocity_variation in
   let record :=
     {| vehicle_id := vehicle_id;
        lat := lat;
        lng := lon;
        datetime := current_time;
        velocity_kmh := actual_velocity * 3.6 |} in
   let distance_increment := actual_velocity * sample_interval in
   Ok {| records := records st ++ [record];
         current_time := current_time + sample_interval;
         current_distance := current_distance st + distance_increment;
         travel_time_minutes := travel_time_minutes + sample_interval / 60;
         calls := S (S (S (calls st))) |})%result.

(** The [while] loop, run for at most [fuel] passes; [None] when the
    condition still holds after them. *)
Fixpoint while_loop (fuel : nat) (self : VehicleTrajectoryGenerator)
    (vehicle_id : Z) (path : list Node) (path_distances : list Q)
    (velocity_ms max_travel_duration rest_duration sample_interval : Q)
    (total_distance : Q) (st : LoopState) : option (result LoopState) :=
  if lt (current_distance st) total_distance then
    match fuel with
    | O => None
    | S fuel' =>
        match
          loop_body self vehicle_id path path_distances velocity_ms
            max_travel_duration rest_duration sample_interval st
        with
        | Ok st' =>
            while_loop fuel' self vehicle_id path path_distances velocity_ms
              max_travel_duration rest_duration sample_interval
              total_distance st'
        | Raise e => Some (Raise e)
        end
    end
  else Some (Ok st).

(** [VehicleTrajectoryGenerator._generate_single_trajectory], with the loop
    bounded by [fuel]; [start] is the number of calls made to [random]
    before.  The value is the list of rows of the DataFrame and the number
    of calls made to [random] afterwards. *)
Definition _generate_single_trajectory (fuel : nat)
    (self : VehicleTrajectoryGenerator) (vehicle_id : Z)
    (path : list Node) (path_distances : list Q)
    (velocity departure_time max_travel_duration rest_duration
       sample_interval : Q)
    (start : nat) : option (result (list GpsRecord * nat)) :=
  let velocity_ms := velocity / 3.6 in
  match list_getitem path_distances (-1) with
  | Raise e => Some (Raise e)
  | Ok total_distance =>
      match
        while_loop fuel self vehicle_id path path_distances velocity_ms
          max_travel_duration rest_duration sample_interval total_distance
          {| records := [];
             current_time := departure_time;
             current_distance := 0;
             travel_time_minutes := 0;
             calls := start |}
      with
      | None => None
      | Some (Raise e) => Some (Raise e)
      | Some (Ok st) =>
          Some
            (dest_node <- list_getitem path (-1) ;;
             dest_lat <- node_y (G self) dest_node ;;
             dest_lng <- node_x (G self) dest_node ;;
             Ok (records st
                   ++ [{| vehicle_id := vehicle_id;
                          lat := dest_lat;
                          lng := dest_lng;
                          datetime := current_time st;
                          velocity_kmh := 0 |}],
                 calls st))%result
      end
  end.

End Generator.

End MockTrackGenerator.

(** ** Auxiliary definitions for the theorems on the rest of the code *)

(** The zone number as [_determine_optimal_crs] computes it. *)
Definition computed_zone (lon : Q) : Z := (int ((lon + 180) / 6) + 1)%Z.

(** A latitude inside the band that is given a UTM frame. *)
Definition in_utm_band (lat : Q) : Prop := -80 < lat /\ lat < 84.

Section EllipseCalls.

Context `{L : Library}.

(** What a caller can do with an Ellipse: call [generate_ellipse], read the
    property [ellipse], or assign one of the public fields of the
    dataclass. *)
Inductive Call : Type :=
| call_generate_ellipse (resolution : Q) (cache : bool)
| call_ellipse
| set_centroid (c : Coord)
| set_semi_major (d : Quantity)
| set_semi_minor (d : Quantity)
| set_orientation (o : Q).

(** [self.<field> = v] for a public field: the slot [_ellipse] is not
    touched. *)
Definition assign (c : Call) (e : Ellipse) : Ellipse :=
  match c with
  | set_centroid v =>
      {| centroid := v; semi_major := semi_major e;
         semi_minor := semi_minor e; orientation := orientation e;
         _ellipse := _ellipse e |}
  | set_semi_major v =>
      {| centroid := centroid e; semi_major := v;
         semi_minor := semi_minor e; orientation := orientation e;
         _ellipse := _ellipse e |}
  | set_semi_minor v =>
      {| centroid := centroid e; semi_major := semi_major e;
         semi_minor := v; orientation := orientation e;
         _ellipse := _ellipse e |}
  | set_orientation v =>
      {| centroid := centroid e; semi_major := semi_major e;
         semi_minor := semi_minor e; orientation := v;
         _ellipse := _ellipse e |}
  | _ => e
  end.

(** The state after one call. *)
Definition run_call (c : Call) (w : World) : World :=
  match c with
  | call_generate_ellipse resolution cache =>
      snd (generate_ellipse resolution cache w)
  | call_ellipse => snd (ellipse w)
  | _ => {| self_ := assign c (self_ w); allocated := allocated w |}
  end.

(** The state after a sequence of calls. *)
Definition run_calls (cs : list Call) (w : World) : World :=
  fold_left (fun w c => run_call c w) cs w.

(** A newly constructed Ellipse, in a state where [n] objects exist. *)
Definition fresh_world (c : Coord) (a b : Quantity) (o : Q) (n : nat)
  : World :=
  {| self_ := Ellipse_init c a b o; allocated := n |}.

End EllipseCalls.

(** The geometry [apply_geometry] computes when the frames differ: the
    operation applied to the geometry mapped into its optimal frame, mapped
    back into the input frame. *)
Definition reproject `{L : Library} (self : OptimalReprojector)
    (func : Geometry -> Geometry) (geom : Geometry) : Geometry :=
  Shapely.map_coords (project (optimal_frame geom) (input_crs self) true)
    (func
       (Shapely.map_coords
          (project (input_crs self) (optimal_frame geom) true) geom)).

(** The running sums of a list of lengths, from [last] on: what the loop of
    [_calculate_path_distances] appends. *)
Fixpoint running_sums (last : Q) (lengths : list Q) : list Q :=
  match lengths with
  | [] => []
  | l :: ls => (last + l) :: running_sums (last + l) ls
  end.

(** A list of numbers in ascending order (equal neighbours allowed). *)
Fixpoint ascending (a : list Q) : Prop :=
  match a with
  | x :: (y :: _) as a' => x <= y /\ ascending a'
  | _ => True
  end.

(** Numbers each of which is at least [gap] above the one before. *)
Fixpoint spaced (gap : Q) (ts : list Q) : Prop :=
  match ts with
  | t :: (t' :: _) as ts' => t + gap <= t' /\ spaced gap ts'
  | _ => True
  end.

(** The least distance one pass of the trajectory loop covers when the
    speed variation is at least 0.7, and the number of passes after which a
    route of length [total] is then covered. *)
Definition least_step (velocity sample_interval : Q) : Q :=
  velocity / 3.6 * 0.7 * sample_interval.

Definition passes_needed (total velocity sample_interval : Q) : nat :=
  Z.to_nat (Qceiling (total / least_step velocity sample_interval)).

(** ** An instance to run the route and trajectory code on

    Three nodes on a meridian, joined by edges of 100 m and 50 m. *)

Definition line_graph : Networkx.MultiDiGraph :=
  {| Networkx.adj := fun u =>
       match u with
       | 1%Z => Some (fun v =>
           match v with
           | 2%Z => Some (fun k =>
               match k with
               | 0%Z => Some {| Networkx.attr_length := Some 100;
                                Networkx.attr_name := Some "Main St"%string;
                                Networkx.attr_highway := None |}
               | _ => None
               end)
           | _ => None
           end)
       | 2%Z => Some (fun v =>
           match v with
           | 3%Z => Some (fun k =>
               match k with
               | 0%Z => Some {| Networkx.attr_length := Some 50;
                                Networkx.attr_name := None;
                                Networkx.attr_highway :=
                                  Some "residential"%string |}
               | _ => None
               end)
           | _ => None
           end)
       | 3%Z => Some (fun _ => None)
       | _ => None
       end;
     Networkx.nodes := fun n =>
       match n with
       | 1%Z => Some {| Networkx.attr_x := Some (-84.388);
                        Networkx.attr_y := Some 33.79 |}
       | 2%Z => Some {| Networkx.attr_x := Some (-84.388);
                        Networkx.attr_y := Some 33.78 |}
       | 3%Z => Some {| Networkx.attr_x := Some (-84.388);
                        Networkx.attr_y := Some 33.775 |}
       | _ => None
       end |}.

#[local] Instance line_routing : Networkx.Routing :=
  {| Networkx.nearest_nodes := fun _ _ Y =>
       if Qle_bool 33.785 Y then 1%Z
       else if Qle_bool 33.7775 Y then 2%Z else 3%Z;
     Networkx.shortest_path := fun _ s t _ =>
       match s, t with
       | 1%Z, 3%Z => Some [1%Z; 2%Z; 3%Z]
       | 1%Z, 2%Z => Some [1%Z; 2%Z]
       | 2%Z, 3%Z => Some [2%Z; 3%Z]
       | _, _ => if Z.eqb s t then Some [s] else None
       end;
     Networkx.graph_from_place := fun _ => line_graph;
     Networkx.graph_from_bbox := fun _ => line_graph;
     Networkx.graph_from_point := fun _ _ => line_graph;
     Networkx.project_graph := fun g => g |}.

Definition line_generator : MockTrackGenerator.VehicleTrajectoryGenerator :=
  {| MockTrackGenerator.G := line_graph;
     MockTrackGenerator.G_proj := line_graph |}.

Definition line_paths : Osm2graph.ShortestPathGenerator :=
  {| Osm2graph.G := line_graph |}.

(** The result of the query from the northern to the southern end. *)
Definition line_result : Osm2graph.PathResults :=
  {| Osm2graph.origin_node := 1%Z;
     Osm2graph.dest_node := 3%Z;
     Osm2graph.origin_coords := (33.79, -84.388);
     Osm2graph.dest_coords := (33.775, -84.388);
     Osm2graph.route_nodes := [1%Z; 2%Z; 3%Z];
     Osm2graph.route_edges := [(1%Z, 2%Z); (2%Z, 3%Z)];
     Osm2graph.route_coords :=
       [(33.79, -84.388); (33.78, -84.388); (33.775, -84.388)];
     Osm2graph.distance_meters := 0 + 100 + 50;
     Osm2graph.distance_km := (0 + 100 + 50) / 1000;
     Osm2graph.num_nodes := 3%Z;
     Osm2graph.num_edges := 2%Z |}.

(** A generator without noise whose speed varies between the two ends of
    the range from call to call. *)
#[local] Instance steady_random : MockTrackGenerator.Random :=
  {| MockTrackGenerator.gauss := fun _ mu _ => mu;
     MockTrackGenerator.uniform := fun k a b =>
       if Nat.even k then a else b |}.

(** Two frames to run the batch variant on: two cities, and a frame whose
    second row lies at latitude 85. *)
Definition two_cities : GeoFrame.FrameWorld string :=
  {| GeoFrame.gdf :=
       [ {| GeoFrame.geometry := {| oid := 0; value := Point (-84.39, 33.75) |};
            GeoFrame.columns := "Atlanta"%string |};
         {| GeoFrame.geometry := {| oid := 1; value := Point (10.75, 59.91) |};
            GeoFrame.columns := "Oslo"%string |} ];
     GeoFrame.created := 2 |}.

Definition city_and_pole : GeoFrame.FrameWorld string :=
  {| GeoFrame.gdf :=
       [ {| GeoFrame.geometry := {| oid := 0; value := Point (-84.39, 33.75) |};
            GeoFrame.columns := "Atlanta"%string |};
         {| GeoFrame.geometry := {| oid := 1; value := Point (0, 85) |};
            GeoFrame.columns := "Arctic"%string |} ];
     GeoFrame.created := 2 |}.

(** Vehicle 7 on the line at 36 km/h, sampled every 5 s from time 0, resting
    10 min after 45 min: the rows returned and the calls made to [random]. *)
Definition line_run : list MockTrackGenerator.GpsRecord * nat :=
  match
    MockTrackGenerator._generate_single_trajectory 5 line_generator 7
      [1%Z; 2%Z; 3%Z] [0; 100; 150] 36 0 45 10 5 0
  with
  | Some (Ok run) => run
  | _ => ([], 0%nat)
  end.

(** * Theorems *)

(** ** Python primitives *)

Lemma lt_iff (a b : Q) : lt a b = true <-> a < b.
Proof.
  unfold lt. rewrite negb_true_iff.
  split; intro H.
  - apply Qnot_le_lt. intro Hle. apply Qle_bool_iff in Hle. congruence.
  - destruct (Qle_bool b a) eqn:E; [| reflexivity].
    apply Qle_bool_iff in E. exfalso. exact (Qlt_not_le _ _ H E).
Qed.

Lemma lt_false_iff (a b : Q) : lt a b = false <-> b <= a.
Proof.
  unfold lt. rewrite negb_false_iff. apply Qle_bool_iff.
Qed.

(** On a non-negative float, truncation is the floor. *)
Lemma int_floor (x : Q) : 0 <= x -> int x = Qfloor x.
Proof.
  intro H. destruct x as [n d]. unfold int, Qfloor. simpl.
  apply Z.quot_div_nonneg; [| reflexivity].
  unfold Qle in H. simpl in H. lia.
Qed.

(** On a negative float that is not an integer it is the floor plus one:
    [int(-0.5) = 0]. *)
Example int_truncates : int (-1 # 2) = 0%Z /\ Qfloor (-1 # 2) = (-1)%Z.
Proof. split; reflexivity. Qed.

(** ** CRS Resolver *)

Lemma utm_quotient_nonneg (lon : Q) : -180 <= lon -> 0 <= (lon + 180) / 6.
Proof.
  intro H. apply Qle_shift_div_l; [reflexivity |].
  setoid_replace (0 * 6) with (-180 + 180) by reflexivity.
  apply Qplus_le_compat; [exact H | apply Qle_refl].
Qed.

Lemma utm_quotient_below (lon : Q) : lon < 180 -> (lon + 180) / 6 < 60.
Proof.
  intro H. apply Qlt_shift_div_r; [reflexivity |].
  setoid_replace (60 * 6) with (180 + 180) by reflexivity.
  apply Qplus_lt_le_compat; [exact H | apply Qle_refl].
Qed.

(** Inside the band the frame is the UTM frame of the zone. *)
Lemma determine_optimal_crs_utm (lon lat : Q) :
  -80 < lat -> lat < 84 -> -180 <= lon ->
  _determine_optimal_crs (lon, lat) = utm_frame (utm_zone lon).
Proof.
  intros Hlo Hhi Hlon. unfold _determine_optimal_crs, utm_frame, utm_zone.
  cbn [fst snd].
  apply lt_iff in Hlo. apply lt_iff in Hhi. rewrite Hlo, Hhi. cbn [andb].
  rewrite (int_floor _ (utm_quotient_nonneg lon Hlon)). reflexivity.
Qed.

(** Sixty zones cover the longitudes from -180 up to, not including, 180. *)
Lemma utm_zone_range (lon : Q) :
  -180 <= lon -> lon < 180 -> (1 <= utm_zone lon <= 60)%Z.
Proof.
  intros Hlo Hhi. unfold utm_zone.
  pose proof (Qfloor_resp_le _ _ (utm_quotient_nonneg lon Hlo)) as H0.
  change (Qfloor 0) with 0%Z in H0.
  assert (H1 : (Qfloor ((lon + 180) / 6) < 60)%Z).
  { rewrite Zlt_Qlt.
    apply Qle_lt_trans with ((lon + 180) / 6);
      [apply Qfloor_le | exact (utm_quotient_below lon Hhi)]. }
  lia.
Qed.

(** Outside the band the frame is the fallback, whatever the longitude. *)
Lemma determine_optimal_crs_polar (lon lat : Q) :
  lat <= -80 \/ 84 <= lat ->
  _determine_optimal_crs (lon, lat) = world_azimuthal_equidistant.
Proof.
  intros [H | H]; unfold _determine_optimal_crs; cbn [fst snd];
    apply lt_false_iff in H; rewrite H.
  - reflexivity.
  - rewrite andb_false_r. reflexivity.
Qed.



(** The boundary cases of the specification. *)
Example utm_zone_boundaries :
  _determine_optimal_crs (-180, 0) = utm_frame 1
  /\ _determine_optimal_crs (179.9, 0) = utm_frame 60
  /\ _determine_optimal_crs (0, 85) = world_azimuthal_equidistant
  /\ _determine_optimal_crs (-180, 85) = world_azimuthal_equidistant
  /\ _determine_optimal_crs (0, -80) = world_azimuthal_equidistant
  /\ _determine_optimal_crs (0, 84) = world_azimuthal_equidistant.
Proof. repeat split; reflexivity. Qed.

(** Longitude 180 itself is given zone 61, and west of -180 truncation and
    floor part ways. *)
Example utm_zone_outside_range :
  _determine_optimal_crs (180, 0) = utm_frame 61
  /\ _determine_optimal_crs (-190, 0) = utm_frame 0
  /\ utm_zone (-190) = (-1)%Z.
Proof. repeat split; reflexivity. Qed.

(** Distinct zones have distinct frames: the zone can be read back from
    the definition string. *)
Lemma str_inj (a b : Z) : str a = str b -> a = b.
Proof.
  intro H. apply to_int_inj.
  assert (Hs : forall z, NilZero.int_of_string (str z) = Some (Z.to_int z)).
  { intro z. unfold str. apply NilZero.isi; destruct z; simpl;
      try discriminate; intro E; injection E as E;
      exact (Unsigned.to_uint_nonnil _ E). }
  pose proof (Hs a) as Ha. rewrite H, Hs in Ha. congruence.
Qed.

Lemma append_length (s t : string) :
  String.length (s ++ t) = (String.length s + String.length t)%nat.
Proof. induction s as [| c s IH]; simpl; [reflexivity | now rewrite IH]. Qed.

Lemma append_cancel_l (s a b : string) :
  (s ++ a = s ++ b)%string -> a = b.
Proof.
  induction s as [| c s IH]; simpl; intro H; [exact H |].
  injection H as H. exact (IH H).
Qed.

Lemma append_cancel_r (a b t : string) :
  (a ++ t = b ++ t)%string -> a = b.
Proof.
  revert b. induction a as [| c a IH]; intros [| d b] H; simpl in H.
  - reflexivity.
  - apply (f_equal String.length) in H. simpl in H.
    rewrite append_length in H. lia.
  - apply (f_equal String.length) in H. simpl in H.
    rewrite append_length in H. lia.
  - injection H as Hc H. rewrite Hc, (IH b H). reflexivity.
Qed.

Lemma utm_frame_inj (zone zone' : Z) :
  utm_frame zone = utm_frame zone' -> zone = zone'.
Proof.
  unfold utm_frame, utm_definition. intro H.
  assert (H' : forall s t : string, from_string s = from_string t -> s = t)
    by (intros s t E; injection E as E; exact E).
  apply H', append_cancel_l, append_cancel_r in H. exact (str_inj _ _ H).
Qed.

(** ** Transformer Pair Builder *)

Lemma CRS_eqb_eq (a b : CRS) : CRS_eqb a b = true <-> a = b.
Proof.
  destruct a as [m | s], b as [n | t]; simpl.
  - rewrite Z.eqb_eq. split; congruence.
  - split; discriminate.
  - split; discriminate.
  - rewrite String.eqb_eq. split; congruence.
Qed.

Section Reprojector.

Context `{L : Library}.

Lemma get_optimal_transformers_unfold
    (self : OptimalReprojector) (geom : Geometry) :
  get_optimal_transformers self geom =
    if CRS_eqb (optimal_frame geom) (input_crs self) then None
    else Some (from_crs (input_crs self) (optimal_frame geom) true,
               from_crs (optimal_frame geom) (input_crs self) true).
Proof. destruct geom; reflexivity. Qed.

Lemma get_optimal_transformers_none
    (self : OptimalReprojector) (geom : Geometry) :
  get_optimal_transformers self geom = None
  <-> optimal_frame geom = input_crs self.
Proof.
  rewrite get_optimal_transformers_unfold, <- CRS_eqb_eq.
  destruct (CRS_eqb (optimal_frame geom) (input_crs self));
    split; congruence.
Qed.

Lemma get_optimal_transformers_some
    (self : OptimalReprojector) (geom : Geometry)
    (pair : Transformer * Transformer) :
  get_optimal_transformers self geom = Some pair ->
  optimal_frame geom <> input_crs self
  /\ pair = (from_crs (input_crs self) (optimal_frame geom) true,
             from_crs (optimal_frame geom) (input_crs self) true).
Proof.
  rewrite get_optimal_transformers_unfold.
  destruct (CRS_eqb (optimal_frame geom) (input_crs self)) eqn:E;
    [discriminate |].
  intro H. split; [| congruence].
  intro Heq. apply CRS_eqb_eq in Heq. congruence.
Qed.


(** ** Reprojection Pipeline *)

(** With a pair in hand, the pipeline maps forward, applies the operation,
    maps back and hands out a new object. *)
Lemma apply_geometry_some
    (self : OptimalReprojector) (geom : Geometry)
    (func : Geometry -> Geometry) (n : nat) :
  optimal_frame geom <> input_crs self ->
  apply_geometry self geom func n =
    (Ok {| oid := n;
           value :=
             Shapely.map_coords
               (project (optimal_frame geom) (input_crs self) true)
               (func (Shapely.map_coords
                        (project (input_crs self) (optimal_frame geom) true)
                        geom)) |},
     S n).
Proof.
  intro Hne. unfold apply_geometry, bind.
  rewrite get_optimal_transformers_unfold.
  destruct (CRS_eqb (optimal_frame geom) (input_crs self)) eqn:E.
  - apply CRS_eqb_eq in E. contradiction.
  - reflexivity.
Qed.


End Reprojector.


(** ** shapely.affinity, vertex by vertex *)

Lemma coords_map_coords (f : Coord -> Coord) (g : Geometry) :
  Shapely.coords (Shapely.map_coords f g) = map f (Shapely.coords g).
Proof. destruct g; reflexivity. Qed.

Lemma Forall2_map_r {A B} (P : A -> B -> Prop) (f : A -> B) (l : list A) :
  (forall a, P a (f a)) -> Forall2 P l (map f l).
Proof.
  intro H. induction l as [| a l IH]; simpl; constructor; auto.
Qed.

(** What an affine map of the library does to the vertices: [P] relates
    every vertex to its image. *)
Lemma affine_transform_vertices
    (P : Coord -> Coord -> Prop) (g : Geometry) (a b d e xoff yoff : Q) :
  (forall x y, P (x, y) (a * x + b * y + xoff, d * x + e * y + yoff)) ->
  Forall2 P (Shapely.coords g)
    (Shapely.coords (Shapely.affine_transform g a b d e xoff yoff)).
Proof.
  intro H. unfold Shapely.affine_transform. rewrite coords_map_coords.
  apply Forall2_map_r. intros [x y]. apply H.
Qed.

Lemma scale_vertices (g : Geometry) (xfact yfact : Q) :
  Forall2 (scaled_about (Shapely.center g) xfact yfact)
    (Shapely.coords g) (Shapely.coords (Shapely.scale g xfact yfact)).
Proof.
  unfold Shapely.scale, Shapely.is_empty.
  destruct (Shapely.coords g) as [| v vs] eqn:E.
  - rewrite E. constructor.
  - rewrite <- E. destruct (Shapely.center g) as [x0 y0].
    apply affine_transform_vertices. intros x y.
    unfold scaled_about. cbn [fst snd]. split; ring.
Qed.

Lemma rotate_vertices `{L : Library} (g : Geometry) (angle : Q) :
  Forall2 (turned_about (Shapely.center g) (cos_deg angle) (sin_deg angle))
    (Shapely.coords g) (Shapely.coords (Shapely.rotate g angle)).
Proof.
  unfold Shapely.rotate, Shapely.is_empty.
  destruct (Shapely.coords g) as [| v vs] eqn:E.
  - rewrite E. constructor.
  - rewrite <- E. destruct (Shapely.center g) as [x0 y0].
    apply affine_transform_vertices. intros x y.
    unfold turned_about. cbn [fst snd]. split; ring.
Qed.

(** ** Units *)

Lemma in_meters_nautical_mile (m : Q) :
  in_meters {| magnitude := m; units := nautical_mile |} == m * 1852.
Proof. unfold in_meters, to. cbn. field. Qed.

Lemma in_meters_meter (m : Q) :
  in_meters {| magnitude := m; units := meter |} == m.
Proof. unfold in_meters, to. cbn. field. Qed.

(** ** Ellipse Constructor *)

Section EllipseConstruction.

Context `{L : Library}.

(** The in-frame operation is the scaled unit buffer, turned when the
    orientation is not zero. *)
Lemma generate_utm_ellipse_unfold
    (c : Geometry) (a b : Quantity) (o r : Q) :
  _generate_utm_ellipse c a b o r =
    if Qeq_bool o 0 then scaled_unit_buffer c a b r
    else Shapely.rotate (scaled_unit_buffer c a b r) o.
Proof. reflexivity. Qed.

(** The frame resolved for a centroid is never the geographic input frame
    of [generate_ellipse]. *)
Lemma optimal_crs_not_input (c : Coord) :
  _determine_optimal_crs c <> from_epsg DEFAULT_EPSG_CRS.
Proof.
  unfold _determine_optimal_crs.
  destruct (lt (-80) (snd c) && lt (snd c) 84); discriminate.
Qed.

(** One run of [generate_ellipse]: it cannot raise, the polygon is the one
    of [construct_ellipse] in a new object, and only [cache] decides whether
    the slot is written. *)
Lemma generate_ellipse_run (resolution : Q) (cache : bool) (w : World) :
  generate_ellipse resolution cache w =
    (Ok {| oid := allocated w;
           value := construct_ellipse (self_ w) resolution |},
     {| self_ :=
          if cache then
            set__ellipse (self_ w)
              (Some {| oid := allocated w;
                       value := construct_ellipse (self_ w) resolution |})
          else self_ w;
        allocated := S (allocated w) |}).
Proof.
  unfold generate_ellipse, bind, get_self, alloc.
  rewrite apply_geometry_some by apply optimal_crs_not_input.
  destruct cache; reflexivity.
Qed.

(** One access of the property. *)
Lemma ellipse_run (w : World) :
  ellipse w =
    match _ellipse (self_ w) with
    | Some p => (Ok (Some p), w)
    | None =>
        let p := {| oid := allocated w;
                    value :=
                      construct_ellipse (self_ w)
                        DEFAULT_ELLIPSE_RESOLUTION |} in
        (Ok (Some p),
         {| self_ := set__ellipse (self_ w) (Some p);
            allocated := S (allocated w) |})
    end.
Proof.
  unfold ellipse, bind, get_self.
  destruct (_ellipse (self_ w)) as [p |] eqn:E.
  - cbn. rewrite E. destruct w; reflexivity.
  - rewrite generate_ellipse_run. reflexivity.
Qed.

End EllipseConstruction.

Section EllipseClaims.

Context `{L : Library}.



(** C6 as the code has it.  For an orientation that is not zero the scaled
    polygon is handed to [shapely.affinity.rotate] with the orientation
    unchanged: every vertex is turned about the centre of the polygon's
    bounding box, counter-clockwise for a positive angle. *)
Theorem generate_utm_ellipse_rotates_counter_clockwise
    (c : Geometry) (a b : Quantity) (o r : Q) :
  ~ o == 0 ->
  let scaled := scaled_unit_buffer c a b r in
  _generate_utm_ellipse c a b o r = Shapely.rotate scaled o
  /\ Forall2
       (turned_about (Shapely.center scaled) (cos_deg o) (sin_deg o))
       (Shapely.coords scaled)
       (Shapely.coords (_generate_utm_ellipse c a b o r)).
Proof.
  intros Ho scaled.
  assert (E : _generate_utm_ellipse c a b o r = Shapely.rotate scaled o).
  { rewrite generate_utm_ellipse_unfold.
    destruct (Qeq_bool o 0) eqn:Eo; [| reflexivity].
    apply Qeq_bool_iff in Eo. contradiction. }
  split; [exact E |].
  rewrite E. apply rotate_vertices.
Qed.



End EllipseClaims.

(** ** Lazy Ellipse Cache *)

Section EllipseCache.

Context `{L : Library}.

(** Regenerations that are not persisted only create objects. *)
Lemma regenerate_unpersisted_run (resolutions : list Q) (w : World) :
  regenerate_unpersisted resolutions w =
    (Ok tt,
     {| self_ := self_ w;
        allocated := (length resolutions + allocated w)%nat |}).
Proof.
  revert w. induction resolutions as [| r rs IH]; intro w.
  - destruct w; reflexivity.
  - cbn [regenerate_unpersisted]. unfold bind.
    rewrite generate_ellipse_run, IH. cbn [self_ allocated length].
    rewrite Nat.add_succ_r. reflexivity.
Qed.

(** Once the slot is filled, the property returns its content and changes
    nothing. *)
Lemma ellipse_populated (w : World) (p : object Geometry) :
  _ellipse (self_ w) = Some p -> ellipse w = (Ok (Some p), w).
Proof. intro H. rewrite ellipse_run, H. reflexivity. Qed.



(** The slot never dangles, and a persisted regeneration replaces the
    cached object by one that is not the old one. *)
Lemma generate_ellipse_ok (resolution : Q) (cache : bool) (w : World) :
  World_ok w -> World_ok (snd (generate_ellipse resolution cache w)).
Proof.
  intros Hw q. rewrite generate_ellipse_run. cbn [snd self_ allocated].
  destruct cache; cbn [set__ellipse _ellipse]; intro Hq.
  - injection Hq as <-. cbn [oid]. lia.
  - specialize (Hw q Hq). lia.
Qed.

Lemma ellipse_ok (w : World) : World_ok w -> World_ok (snd (ellipse w)).
Proof.
  intros Hw q. rewrite ellipse_run.
  destruct (_ellipse (self_ w)) as [p |] eqn:E; cbn [snd].
  - apply Hw.
  - cbn [self_ set__ellipse _ellipse allocated]. intro Hq.
    injection Hq as <-. cbn [oid]. lia.
Qed.

Lemma generate_ellipse_new_object
    (resolution : Q) (cache : bool) (w : World) (q p : object Geometry) :
  World_ok w ->
  _ellipse (self_ w) = Some q ->
  fst (generate_ellipse resolution cache w) = Ok p ->
  oid p <> oid q.
Proof.
  intros Hw Hq. rewrite generate_ellipse_run. cbn [fst]. intro Hp.
  injection Hp as <-. cbn [oid]. specialize (Hw q Hq). lia.
Qed.

End EllipseCache.

(** ** The code on concrete inputs *)

(** At a quarter turn the end of the semi-major axis, [(3704, 0)], goes to
    [(0, 3704)]: counter-clockwise. *)
Lemma generate_utm_ellipse_rotates_counter_clockwise_witness :
  _generate_utm_ellipse (Point (0, 0))
    {| magnitude := 2; units := nautical_mile |}
    {| magnitude := 1; units := nautical_mile |} 90 1
  = Shapely.rotate
      (scaled_unit_buffer (Point (0, 0))
         {| magnitude := 2; units := nautical_mile |}
         {| magnitude := 1; units := nautical_mile |} 1) 90
  /\ Forall2
       (turned_about
          (Shapely.center
             (scaled_unit_buffer (Point (0, 0))
                {| magnitude := 2; units := nautical_mile |}
                {| magnitude := 1; units := nautical_mile |} 1))
          (cos_deg 90) (sin_deg 90))
       (Shapely.coords
          (scaled_unit_buffer (Point (0, 0))
             {| magnitude := 2; units := nautical_mile |}
             {| magnitude := 1; units := nautical_mile |} 1))
       (Shapely.coords
          (_generate_utm_ellipse (Point (0, 0))
             {| magnitude := 2; units := nautical_mile |}
             {| magnitude := 1; units := nautical_mile |} 90 1)).
Proof.
  apply (generate_utm_ellipse_rotates_counter_clockwise (Point (0, 0))
           {| magnitude := 2; units := nautical_mile |}
           {| magnitude := 1; units := nautical_mile |} 90 1).
  intro H. discriminate H.
Defined.

(** C6 as stated fails.  Semi-axes of 2 and 1 nautical miles about the
    origin, one segment per quarter, orientation 90: the code returns the
    ring that starts at [(0, 3704)], a clockwise rotation about the
    centroid gives the ring that starts at [(0, -3704)]. *)
Lemma rotation_is_not_clockwise :
  Geometry_eqb
    (scaled_unit_buffer (Point (0, 0))
       {| magnitude := 2; units := nautical_mile |}
       {| magnitude := 1; units := nautical_mile |} 1)
    (Polygon [(3704, 0); (0, -1852); (-3704, 0); (0, 1852); (3704, 0)])
  = true
  /\ Geometry_eqb
       (_generate_utm_ellipse (Point (0, 0))
          {| magnitude := 2; units := nautical_mile |}
          {| magnitude := 1; units := nautical_mile |} 90 1)
       (Polygon [(0, 3704); (1852, 0); (0, -3704); (-1852, 0); (0, 3704)])
     = true
  /\ Geometry_eqb
       (rotate_clockwise_about (0, 0)
          (scaled_unit_buffer (Point (0, 0))
             {| magnitude := 2; units := nautical_mile |}
             {| magnitude := 1; units := nautical_mile |} 1) 90)
       (Polygon [(0, -3704); (-1852, 0); (0, 3704); (1852, 0); (0, -3704)])
     = true
  /\ Geometry_eqb
       (_generate_utm_ellipse (Point (0, 0))
          {| magnitude := 2; units := nautical_mile |}
          {| magnitude := 1; units := nautical_mile |} 90 1)
       (rotate_clockwise_about (0, 0)
          (scaled_unit_buffer (Point (0, 0))
             {| magnitude := 2; units := nautical_mile |}
             {| magnitude := 1; units := nautical_mile |} 1) 90)
     = false.
Proof.
  split; [vm_compute; reflexivity |].
  split; [vm_compute; reflexivity |].
  split; vm_compute; reflexivity.
Qed.


(** * Theorems on the rest of the code *)

From Stdlib Require Import Lqa.

(** ** Truncation *)

Lemma int_nonneg_iff (x : Q) : (0 <= int x)%Z <-> -1 < x.
Proof.
  destruct x as [n d]. unfold int, Qlt. cbn [Qnum Qden].
  destruct (Z_lt_le_dec n 0) as [Hn | Hn].
  - replace n with (- - n)%Z by lia.
    rewrite Z.quot_opp_l by lia.
    rewrite Z.quot_div_nonneg by lia.
    pose proof (Z.div_small_iff (- n) (Z.pos d) ltac:(lia)) as Hs.
    pose proof (Z.div_pos (- n) (Z.pos d) ltac:(lia) ltac:(lia)) as Hp.
    split; intro H.
    + assert (E : (- n / Z.pos d = 0)%Z) by lia.
      apply Hs in E. lia.
    + assert (E : (- n / Z.pos d = 0)%Z) by (apply Hs; lia).
      lia.
  - rewrite Z.quot_div_nonneg by lia.
    pose proof (Z.div_pos n (Z.pos d) Hn ltac:(lia)). lia.
Qed.

Lemma int_le_iff (x : Q) (k : Z) :
  (0 <= k)%Z -> (int x <= k)%Z <-> x < inject_Z (k + 1).
Proof.
  intro Hk. destruct x as [n d]. unfold int, Qlt, inject_Z.
  cbn [Qnum Qden].
  destruct (Z_lt_le_dec n 0) as [Hn | Hn].
  - replace n with (- - n)%Z at 1 by lia.
    rewrite Z.quot_opp_l by lia.
    rewrite Z.quot_div_nonneg by lia.
    pose proof (Z.div_pos (- n) (Z.pos d) ltac:(lia) ltac:(lia)) as Hp.
    split; intro H; nia.
  - rewrite Z.quot_div_nonneg by lia.
    split; intro H.
    + pose proof (Z.mul_succ_div_gt n (Z.pos d) ltac:(lia)) as Hgt.
      nia.
    + assert (n / Z.pos d < k + 1)%Z; [| lia].
      apply Z.div_lt_upper_bound; lia.
Qed.

(** ** CRS Resolver: which points share a frame *)

Lemma determine_optimal_crs_band (lon lat : Q) :
  in_utm_band lat ->
  _determine_optimal_crs (lon, lat) = utm_frame (computed_zone lon).
Proof.
  intros [Hlo Hhi]. unfold _determine_optimal_crs. cbn [fst snd].
  apply lt_iff in Hlo. apply lt_iff in Hhi. rewrite Hlo, Hhi. reflexivity.
Qed.

Lemma computed_zone_valid_iff (lon : Q) :
  (1 <= computed_zone lon <= 60)%Z <-> -186 < lon /\ lon < 180.
Proof.
  unfold computed_zone.
  pose proof (int_nonneg_iff ((lon + 180) / 6)) as H0.
  pose proof (int_le_iff ((lon + 180) / 6) 59 ltac:(lia)) as H1.
  change (inject_Z (59 + 1)) with 60 in H1.
  assert (E : (lon + 180) / 6 == (lon + 180) * (1 # 6)) by field.
  assert (Ha : -1 < (lon + 180) / 6 <-> -186 < lon)
    by (rewrite E; split; intro; lra).
  assert (Hb : (lon + 180) / 6 < 60 <-> lon < 180)
    by (rewrite E; split; intro; lra).
  rewrite <- Ha, <- Hb, <- H0, <- H1. lia.
Qed.





(** ** Reprojection Pipeline: when it fails, and the batch variant *)

Section ReprojectorExtras.

Context `{L : Library}.

Lemma optimal_frame_is_input_iff (input_epsg : Z) (geom : Geometry) :
  optimal_frame geom = from_epsg input_epsg
  <-> input_epsg = 54032%Z
      /\ (snd (anchor_point geom) <= -80 \/ 84 <= snd (anchor_point geom)).
Proof.
  unfold optimal_frame, _determine_optimal_crs.
  destruct (lt (-80) (snd (anchor_point geom))) eqn:Hlo;
    destruct (lt (snd (anchor_point geom)) 84) eqn:Hhi; cbn [andb].
  - apply lt_iff in Hlo. apply lt_iff in Hhi.
    split; [discriminate |]. intros [_ [H | H]]; lra.
  - apply lt_false_iff in Hhi.
    split; [intro E; injection E as E; auto | intros [-> _]; reflexivity].
  - apply lt_false_iff in Hlo.
    split; [intro E; injection E as E; auto | intros [-> _]; reflexivity].
  - apply lt_false_iff in Hlo.
    split; [intro E; injection E as E; auto | intros [-> _]; reflexivity].
Qed.

Lemma apply_geometry_raises
    (self : OptimalReprojector) (geom : Geometry)
    (func : Geometry -> Geometry) (n : nat) :
  optimal_frame geom = input_crs self ->
  apply_geometry self geom func n = (Raise TypeError, n).
Proof.
  intro Heq. apply get_optimal_transformers_none in Heq.
  unfold apply_geometry, bind. rewrite Heq. reflexivity.
Qed.


End ReprojectorExtras.

Section FrameExtras.

Context `{L : Library}.

Variable A : Type.

Lemma apply_rows_ok (self : OptimalReprojector) (func : Geometry -> Geometry)
    (rows : list (GeoFrame.Row A)) (n : nat) :
  Forall (fun r => optimal_frame (value (GeoFrame.geometry A r))
                   <> input_crs self) rows ->
  exists column : list (object Geometry),
    GeoFrame.apply_rows A self func rows n
    = (Ok column, (List.length rows + n)%nat)
    /\ map value column
       = map (fun r => reproject self func (value (GeoFrame.geometry A r)))
           rows.
Proof.
  intro H. revert n. induction H as [| r rows Hr _ IH]; intro n.
  - exists []. split; reflexivity.
  - destruct (IH (S n)) as [column [Hrun Hval]].
    exists ({| oid := n;
               value := reproject self func (value (GeoFrame.geometry A r)) |}
              :: column).
    split.
    + cbn [GeoFrame.apply_rows]. unfold bind.
      rewrite (apply_geometry_some self _ func n Hr). rewrite Hrun.
      cbn [List.length]. rewrite Nat.add_succ_r. reflexivity.
    + cbn [map value]. rewrite Hval. reflexivity.
Qed.

Lemma apply_rows_raises (self : OptimalReprojector)
    (func : Geometry -> Geometry) (rows : list (GeoFrame.Row A)) (n : nat) :
  Exists (fun r => optimal_frame (value (GeoFrame.geometry A r))
                   = input_crs self) rows ->
  fst (GeoFrame.apply_rows A self func rows n) = Raise TypeError.
Proof.
  revert n. induction rows as [| r rows IH]; intros n H.
  - inversion H.
  - cbn [GeoFrame.apply_rows]. unfold bind.
    destruct (CRS_eqb (optimal_frame (value (GeoFrame.geometry A r)))
                (input_crs self)) eqn:E.
    + apply CRS_eqb_eq in E.
      rewrite (apply_geometry_raises self _ func n E). reflexivity.
    + assert (Hne : optimal_frame (value (GeoFrame.geometry A r))
                    <> input_crs self).
      { intro Heq. apply CRS_eqb_eq in Heq. congruence. }
      rewrite (apply_geometry_some self _ func n Hne).
      inversion H as [? ? Hhd | ? ? Htl]; subst; [contradiction |].
      specialize (IH (S n) Htl).
      destruct (GeoFrame.apply_rows A self func rows (S n)) as [[col | e] m];
        cbn [fst] in IH; [discriminate | cbn; exact IH].
Qed.

Lemma set_geometry_columns (rows : list (GeoFrame.Row A))
    (column : list (object Geometry)) :
  map (GeoFrame.columns A) (GeoFrame.set_geometry A rows column)
  = map (GeoFrame.columns A) rows.
Proof.
  revert column. induction rows as [| r rows IH]; intros [| g gs];
    cbn; try reflexivity.
  rewrite IH. reflexivity.
Qed.

Lemma set_geometry_geometry (rows : list (GeoFrame.Row A))
    (column : list (object Geometry)) :
  List.length column = List.length rows ->
  map (GeoFrame.geometry A) (GeoFrame.set_geometry A rows column) = column.
Proof.
  revert column. induction rows as [| r rows IH]; intros [| g gs] H;
    cbn in *; try reflexivity; try discriminate.
  rewrite IH by lia. reflexivity.
Qed.



End FrameExtras.



(** ** Ellipse: what sequences of calls keep, and what assignments leave *)

Section EllipseExtras.

Context `{L : Library}.

Lemma run_call_ok (c : Call) (w : World) : World_ok w -> World_ok (run_call c w).
Proof.
  intro Hw. destruct c; cbn [run_call].
  - apply generate_ellipse_ok. exact Hw.
  - apply ellipse_ok. exact Hw.
  - exact Hw.
  - exact Hw.
  - exact Hw.
  - exact Hw.
Qed.

Lemma run_calls_ok (cs : list Call) (w : World) :
  World_ok w -> World_ok (run_calls cs w).
Proof.
  revert w. induction cs as [| c cs IH]; intros w Hw; [exact Hw |].
  cbn [run_calls fold_left]. apply IH, run_call_ok, Hw.
Qed.

Lemma fresh_world_ok (c : Coord) (a b : Quantity) (o : Q) (n : nat) :
  World_ok (fresh_world c a b o n).
Proof. intros q Hq. discriminate Hq. Qed.



End EllipseExtras.


(** ** Ellipse Constructor: degenerate axes and the number of vertices *)

Lemma Forall2_Forall_r {A B} (P : A -> B -> Prop) (Q' : B -> Prop)
    (l : list A) (l' : list B) :
  (forall a b, P a b -> Q' b) -> Forall2 P l l' -> Forall Q' l'.
Proof.
  intros H H2. induction H2; constructor; eauto.
Qed.

Section ConstructionExtras.

Context `{L : Library}.

Lemma scale_length (g : Geometry) (xfact yfact : Q) :
  List.length (Shapely.coords (Shapely.scale g xfact yfact))
  = List.length (Shapely.coords g).
Proof. symmetry. exact (Forall2_length (scale_vertices g xfact yfact)). Qed.

Lemma rotate_length (g : Geometry) (angle : Q) :
  List.length (Shapely.coords (Shapely.rotate g angle))
  = List.length (Shapely.coords g).
Proof. symmetry. exact (Forall2_length (rotate_vertices g angle)). Qed.

Lemma in_meters_zero (a : Quantity) : magnitude a == 0 -> in_meters a == 0.
Proof.
  intro H. unfold in_meters, to. cbn [magnitude]. rewrite H.
  destruct (units a); reflexivity.
Qed.

(** X8.  A semi-major axis of zero length is accepted: with orientation 0
    every vertex of the in-frame polygon has the x of the centre of the
    buffer's bounding box, so the polygon is collapsed onto a vertical
    segment. *)
Theorem zero_semi_major_collapses
    (c : Geometry) (a b : Quantity) (r : Q) :
  magnitude a == 0 ->
  Forall (fun v => fst v == fst (Shapely.center (geom_buffer c 1 r)))
    (Shapely.coords (_generate_utm_ellipse c a b 0 r)).
Proof.
  intro H. apply in_meters_zero in H.
  rewrite generate_utm_ellipse_unfold. cbn [Qeq_bool].
  change (Qeq_bool 0 0) with true. cbv iota.
  unfold scaled_unit_buffer.
  refine (Forall2_Forall_r _ _ _ _ _
            (scale_vertices (geom_buffer c 1 r) (in_meters a) (in_meters b))).
  intros v v' [Hx _]. rewrite Hx, H. ring.
Qed.


End ConstructionExtras.

(** A semi-major axis of 0 nautical miles. *)
Lemma zero_semi_major_collapses_witness :
  Forall (fun v => fst v == fst (Shapely.center (geom_buffer (Point (0, 0)) 1 1)))
    (Shapely.coords
       (_generate_utm_ellipse (Point (0, 0))
          {| magnitude := 0; units := nautical_mile |}
          {| magnitude := 1; units := nautical_mile |} 0 1)).
Proof.
  apply (zero_semi_major_collapses (Point (0, 0))
           {| magnitude := 0; units := nautical_mile |}
           {| magnitude := 1; units := nautical_mile |} 1).
  reflexivity.
Defined.

(** * mock: routes and cumulative distances *)

Section RouteExtras.

Import Builtins Networkx.

Context `{R : Routing} `{Rnd : MockTrackGenerator.Random}.

(** The lookups of [edge_lengths] only fail with KeyError. *)
Lemma edge_length_error (g : MultiDiGraph) (u v : Node) (e : exn) :
  Osm2graph.edge_length g u v = Raise e -> e = KeyError.
Proof.
  unfold Osm2graph.edge_length, Osm2graph.edge_data, rbind, getitem, getattr.
  destruct (adj g u) as [a |]; [| intro H; injection H as <-; reflexivity].
  destruct (a v) as [b |]; [| intro H; injection H as <-; reflexivity].
  destruct (b 0%Z) as [d |]; [| intro H; injection H as <-; reflexivity].
  destruct (attr_length d); [discriminate |].
  intro H; injection H as <-; reflexivity.
Qed.

Lemma edge_lengths_cons (g : MultiDiGraph) (u v : Node) (path : list Node) :
  Osm2graph.edge_lengths g (u :: v :: path)
  = rbind (Osm2graph.edge_length g u v)
      (fun l =>
         rbind (Osm2graph.edge_lengths g (v :: path))
           (fun ls => Ok (l :: ls))).
Proof. reflexivity. Qed.

Lemma path_distances_from_cons
    (g : MultiDiGraph) (last : Q) (u v : Node) (path : list Node) :
  MockTrackGenerator.path_distances_from g last (u :: v :: path)
  = rbind (Osm2graph.edge_length g u v)
      (fun l =>
         rbind (MockTrackGenerator.path_distances_from g (last + l)
                  (v :: path))
           (fun ds => Ok ((last + l) :: ds))).
Proof.
  unfold Osm2graph.edge_length.
  destruct (Osm2graph.edge_data g u v) as [d | e] eqn:E;
    cbn [MockTrackGenerator.path_distances_from]; rewrite E; reflexivity.
Qed.

(** The loop of [_calculate_path_distances] is the running sum of the edge
    lengths of the route. *)
Lemma path_distances_from_edge_lengths
    (g : MultiDiGraph) (path : list Node) (last : Q) :
  MockTrackGenerator.path_distances_from g last path
  = rbind (Osm2graph.edge_lengths g path)
      (fun ls => Ok (running_sums last ls)).
Proof.
  revert last. induction path as [| u path IH]; intro last; [reflexivity |].
  destruct path as [| v path]; [reflexivity |].
  rewrite path_distances_from_cons, edge_lengths_cons.
  destruct (Osm2graph.edge_length g u v) as [l | e]; [| reflexivity].
  cbn [rbind]. rewrite IH.
  destruct (Osm2graph.edge_lengths g (v :: path)) as [ls | e]; reflexivity.
Qed.

Lemma edge_lengths_length (g : MultiDiGraph) (path : list Node) (ls : list Q) :
  Osm2graph.edge_lengths g path = Ok ls ->
  List.length ls = (List.length path - 1)%nat.
Proof.
  revert ls. induction path as [| u path IH]; intros ls H.
  - injection H as <-. reflexivity.
  - destruct path as [| v path]; [injection H as <-; reflexivity |].
    rewrite edge_lengths_cons in H.
    destruct (Osm2graph.edge_length g u v) as [l | e]; [| discriminate].
    cbn [rbind] in H.
    destruct (Osm2graph.edge_lengths g (v :: path)) as [ls' | e];
      [| discriminate].
    injection H as <-. cbn [List.length]. rewrite (IH ls' eq_refl).
    cbn [List.length]. lia.
Qed.

Lemma running_sums_length (last : Q) (ls : list Q) :
  List.length (running_sums last ls) = List.length ls.
Proof.
  revert last. induction ls as [| l ls IH]; intro last; [reflexivity |].
  cbn. rewrite IH. reflexivity.
Qed.

Lemma running_sums_last (last : Q) (ls : list Q) (d : Q) :
  List.last (last :: running_sums last ls) d = fold_left Qplus ls last.
Proof.
  revert last. induction ls as [| l ls IH]; intro last; [reflexivity |].
  cbn [running_sums fold_left]. rewrite <- IH. reflexivity.
Qed.

Lemma running_sums_ascending (last : Q) (ls : list Q) :
  Forall (fun l => 0 <= l) ls -> ascending (last :: running_sums last ls).
Proof.
  intro H. revert last. induction H as [| l ls Hl _ IH]; intro last.
  - exact I.
  - cbn [running_sums ascending]. split; [lra | apply IH].
Qed.

(** X10.  When [_calculate_path_distances] returns, the list starts at 0
    and holds one cumulative distance per node of the path (for the empty
    path it is [[0]], one entry more than the path has nodes); if no edge
    length is negative the list is in ascending order. *)
Theorem calculate_path_distances_shape
    (self : MockTrackGenerator.VehicleTrajectoryGenerator)
    (path : list Node) (distances : list Q) :
  MockTrackGenerator._calculate_path_distances self path = Ok distances ->
  exists lengths : list Q,
    Osm2graph.edge_lengths (MockTrackGenerator.G self) path = Ok lengths
    /\ distances = 0 :: running_sums 0 lengths
    /\ List.length distances = Nat.max 1 (List.length path)
    /\ (Forall (fun l => 0 <= l) lengths -> ascending distances).
Proof.
  unfold MockTrackGenerator._calculate_path_distances.
  rewrite path_distances_from_edge_lengths.
  destruct (Osm2graph.edge_lengths (MockTrackGenerator.G self) path)
    as [ls | e] eqn:E; [| discriminate].
  cbn [rbind]. intro H. injection H as <-.
  exists ls. split; [reflexivity |]. split; [reflexivity |]. split.
  - cbn [List.length]. rewrite running_sums_length.
    rewrite (edge_lengths_length _ _ _ E). lia.
  - apply running_sums_ascending.
Qed.

(** X11.  [_calculate_path_distances] returns a list exactly when every
    pair of consecutive nodes of the path is joined by an edge with key 0
    that has a length; otherwise it raises KeyError, and it raises nothing
    else. *)
Theorem calculate_path_distances_fails_iff
    (self : MockTrackGenerator.VehicleTrajectoryGenerator)
    (path : list Node) :
  ((exists distances,
      MockTrackGenerator._calculate_path_distances self path = Ok distances)
   <-> Forall (fun uv =>
                 exists l,
                   Osm2graph.edge_length (MockTrackGenerator.G self)
                     (fst uv) (snd uv) = Ok l)
         (Osm2graph.route_pairs path))
  /\ (forall e,
        MockTrackGenerator._calculate_path_distances self path = Raise e ->
        e = KeyError).
Proof.
  unfold MockTrackGenerator._calculate_path_distances.
  rewrite path_distances_from_edge_lengths.
  set (g := MockTrackGenerator.G self).
  assert (Hiff : (exists ls, Osm2graph.edge_lengths g path = Ok ls)
                 <-> Forall (fun uv =>
                               exists l,
                                 Osm2graph.edge_length g (fst uv) (snd uv)
                                 = Ok l)
                       (Osm2graph.route_pairs path)).
  { induction path as [| u path IH]; [split; [constructor | eexists; reflexivity] |].
    destruct path as [| v path];
      [split; [constructor | eexists; reflexivity] |].
    rewrite edge_lengths_cons.
    change (Osm2graph.route_pairs (u :: v :: path))
      with ((u, v) :: Osm2graph.route_pairs (v :: path)).
    split.
    - intros [ls H].
      destruct (Osm2graph.edge_length g u v) as [l | e] eqn:El;
        [| discriminate].
      cbn [rbind] in H.
      destruct (Osm2graph.edge_lengths g (v :: path)) as [ls' | e];
        [| discriminate].
      constructor; [exists l; exact El |].
      apply IH. eexists; reflexivity.
    - intro H. inversion H as [| ? ? [l El] Htl]; subst.
      cbn [fst snd] in El. rewrite El. cbn [rbind].
      apply IH in Htl. destruct Htl as [ls' Hls']. rewrite Hls'.
      eexists; reflexivity. }
  assert (Herr : forall e, Osm2graph.edge_lengths g path = Raise e
                           -> e = KeyError).
  { clear Hiff. induction path as [| u path IH]; [discriminate |].
    destruct path as [| v path]; [discriminate |].
    rewrite edge_lengths_cons. intros e H.
    destruct (Osm2graph.edge_length g u v) as [l | e'] eqn:El.
    - cbn [rbind] in H.
      destruct (Osm2graph.edge_lengths g (v :: path)) as [ls' | e''];
        [discriminate |].
      injection H as <-. apply IH. reflexivity.
    - injection H as <-. exact (edge_length_error g u v e' El). }
  split.
  - rewrite <- Hiff. split.
    + intros [ds H].
      destruct (Osm2graph.edge_lengths g path) as [ls | e];
        [eexists; reflexivity | discriminate].
    + intros [ls H]. rewrite H. eexists; reflexivity.
  - intros e H.
    destruct (Osm2graph.edge_lengths g path) as [ls | e'] eqn:E;
      [discriminate |].
    injection H as <-. apply Herr. reflexivity.
Qed.

End RouteExtras.

(** The three nodes of the line: distances 0, 100 and 150. *)
Lemma calculate_path_distances_shape_witness :
  exists lengths : list Q,
    Osm2graph.edge_lengths (MockTrackGenerator.G line_generator)
      [1%Z; 2%Z; 3%Z] = Ok lengths
    /\ [0; 0 + 100; 0 + 100 + 50] = 0 :: running_sums 0 lengths
    /\ List.length [0; 0 + 100; 0 + 100 + 50]
       = Nat.max 1 (List.length [1%Z; 2%Z; 3%Z])
    /\ (Forall (fun l => 0 <= l) lengths
        -> ascending [0; 0 + 100; 0 + 100 + 50]).
Proof.
  apply (calculate_path_distances_shape line_generator [1%Z; 2%Z; 3%Z]
           [0; 0 + 100; 0 + 100 + 50]).
  reflexivity.
Defined.

(** * mock/osm2graph.py: the result of a route query *)

Section ShortestPathExtras.

Import Builtins Networkx.

Context `{R : Routing}.

Lemma route_pairs_length (route : list Node) :
  List.length (Osm2graph.route_pairs route) = (List.length route - 1)%nat.
Proof.
  induction route as [| u route IH]; [reflexivity |].
  destruct route as [| v route]; [reflexivity |].
  change (Osm2graph.route_pairs (u :: v :: route))
    with ((u, v) :: Osm2graph.route_pairs (v :: route)).
  cbn [List.length] in *. rewrite IH. lia.
Qed.

Lemma coords_of_length (g : MultiDiGraph) (route : list Node)
    (cs : list (Q * Q)) :
  Osm2graph.coords_of g route = Ok cs -> List.length cs = List.length route.
Proof.
  revert cs. induction route as [| n route IH]; intros cs H.
  - injection H as <-. reflexivity.
  - cbn [Osm2graph.coords_of] in H.
    destruct (Osm2graph.node_coords g n) as [c | e]; [| discriminate].
    cbn [rbind] in H.
    destruct (Osm2graph.coords_of g route) as [cs' | e]; [| discriminate].
    injection H as <-. cbn [List.length]. rewrite (IH cs' eq_refl).
    reflexivity.
Qed.

(** What a successful query went through. *)
Lemma calculate_shortest_path_some
    (self : Osm2graph.ShortestPathGenerator)
    (origin dest : Q * Q) (weight : string) (res : Osm2graph.PathResults) :
  Osm2graph.calculate_shortest_path self origin dest weight = Ok (Some res) ->
  exists lengths coords,
    Osm2graph.get_nearest_node self (fst origin) (snd origin)
    = Ok (Osm2graph.origin_node res)
    /\ Osm2graph.get_nearest_node self (fst dest) (snd dest)
       = Ok (Osm2graph.dest_node res)
    /\ shortest_path (Osm2graph.G self) (Osm2graph.origin_node res)
         (Osm2graph.dest_node res) weight
       = Some (Osm2graph.route_nodes res)
    /\ Osm2graph.edge_lengths (Osm2graph.G self) (Osm2graph.route_nodes res)
       = Ok lengths
    /\ Osm2graph.coords_of (Osm2graph.G self) (Osm2graph.route_nodes res)
       = Ok coords
    /\ res
       = {| Osm2graph.origin_node := Osm2graph.origin_node res;
            Osm2graph.dest_node := Osm2graph.dest_node res;
            Osm2graph.origin_coords := origin;
            Osm2graph.dest_coords := dest;
            Osm2graph.route_nodes := Osm2graph.route_nodes res;
            Osm2graph.route_edges :=
              Osm2graph.route_pairs (Osm2graph.route_nodes res);
            Osm2graph.route_coords := coords;
            Osm2graph.distance_meters := sum lengths;
            Osm2graph.distance_km := sum lengths / 1000;
            Osm2graph.num_nodes :=
              Z.of_nat (List.length (Osm2graph.route_nodes res));
            Osm2graph.num_edges :=
              Z.of_nat
                (List.length
                   (Osm2graph.route_pairs (Osm2graph.route_nodes res))) |}.
Proof.
  unfold Osm2graph.calculate_shortest_path.
  destruct (Osm2graph.get_nearest_node self (fst origin) (snd origin))
    as [o | e]; [| discriminate].
  cbn [rbind].
  destruct (Osm2graph.get_nearest_node self (fst dest) (snd dest))
    as [d | e]; [| discriminate].
  cbn [rbind].
  destruct (shortest_path (Osm2graph.G self) o d weight) as [route |] eqn:Hp;
    [| discriminate].
  destruct (Osm2graph.edge_lengths (Osm2graph.G self) route) as [ls | e] eqn:El;
    [| discriminate].
  cbn [rbind].
  destruct (Osm2graph.coords_of (Osm2graph.G self) route) as [cs | e] eqn:Ec;
    [| discriminate].
  cbn [rbind]. intro H. injection H as <-. cbn.
  exists ls, cs. repeat (split; [assumption || reflexivity |]). reflexivity.
Qed.

Lemma get_nearest_node_ok
    (self : Osm2graph.ShortestPathGenerator) (lat lon : Q) (n : Node) :
  Osm2graph.get_nearest_node self lat lon = Ok n ->
  n = nearest_nodes (Osm2graph.G self) lon lat
  /\ exists y x, Osm2graph.node_coords (Osm2graph.G self) n = Ok (y, x).
Proof.
  unfold Osm2graph.get_nearest_node, Osm2graph.node_coords.
  destruct (getitem (nodes (Osm2graph.G self))
              (nearest_nodes (Osm2graph.G self) lon lat)) as [d | e] eqn:Eg;
    [| discriminate].
  cbn [rbind].
  destruct (getattr (attr_y d)) as [y | e] eqn:Ey; [| discriminate].
  destruct (getattr (attr_x d)) as [x | e] eqn:Ex; [| discriminate].
  cbn [rbind]. intro H. injection H as <-.
  split; [reflexivity |]. exists y, x.
  rewrite Eg. cbn [rbind]. rewrite Ey. cbn [rbind]. rewrite Ex. reflexivity.
Qed.

(** X12.  A result of [calculate_shortest_path] is consistent: the nearest
    nodes were looked up with X = longitude and Y = latitude of the
    (latitude, longitude) pairs given, the route is the one found between
    them, there is one coordinate pair per node and one edge less than
    nodes, [distance_meters] is the sum of the [length] attributes along
    the route whatever [weight] was minimised, and [distance_km] is a
    thousandth of it. *)
Theorem calculate_shortest_path_consistent
    (self : Osm2graph.ShortestPathGenerator)
    (origin dest : Q * Q) (weight : string) (res : Osm2graph.PathResults) :
  Osm2graph.calculate_shortest_path self origin dest weight = Ok (Some res) ->
  Osm2graph.origin_node res
  = nearest_nodes (Osm2graph.G self) (snd origin) (fst origin)
  /\ Osm2graph.dest_node res
     = nearest_nodes (Osm2graph.G self) (snd dest) (fst dest)
  /\ shortest_path (Osm2graph.G self) (Osm2graph.origin_node res)
       (Osm2graph.dest_node res) weight
     = Some (Osm2graph.route_nodes res)
  /\ Osm2graph.num_nodes res
     = Z.of_nat (List.length (Osm2graph.route_nodes res))
  /\ Osm2graph.num_edges res
     = Z.of_nat (List.length (Osm2graph.route_nodes res) - 1)
  /\ List.length (Osm2graph.route_coords res)
     = List.length (Osm2graph.route_nodes res)
  /\ Osm2graph.route_edges res
     = Osm2graph.route_pairs (Osm2graph.route_nodes res)
  /\ Osm2graph.distance_km res = Osm2graph.distance_meters res / 1000
  /\ exists lengths : list Q,
       Osm2graph.edge_lengths (Osm2graph.G self) (Osm2graph.route_nodes res)
       = Ok lengths
       /\ Osm2graph.distance_meters res = sum lengths.
Proof.
  intro H.
  destruct (calculate_shortest_path_some self origin dest weight res H)
    as [ls [cs [Ho [Hd [Hp [El [Ec Hres]]]]]]].
  apply get_nearest_node_ok in Ho. apply get_nearest_node_ok in Hd.
  split; [apply Ho |]. split; [apply Hd |]. split; [exact Hp |].
  rewrite Hres. cbn.
  split; [reflexivity |].
  split; [rewrite route_pairs_length; reflexivity |].
  split; [exact (coords_of_length _ _ _ Ec) |].
  split; [reflexivity |]. split; [reflexivity |].
  exists ls. split; [exact El | reflexivity].
Qed.

End ShortestPathExtras.

Section RouteDetailsExtras.

Import Builtins Networkx.

Context `{R : Routing}.

Lemma segments_from_cons
    (g : MultiDiGraph) (i : Z) (u v : Node) (route : list Node) :
  Osm2graph.segments_from g i (u :: v :: route)
  = rbind (Osm2graph.edge_data g u v) (fun edge =>
    rbind (Osm2graph.node_coords g u) (fun from_coords =>
    rbind (Osm2graph.node_coords g v) (fun to_coords =>
    rbind (getattr (attr_length edge)) (fun length_m =>
    rbind (Osm2graph.segments_from g (i + 1)%Z (v :: route)) (fun segs =>
      Ok ({| Osm2graph.segment := (i + 1)%Z;
             Osm2graph.from_node := u;
             Osm2graph.to_node := v;
             Osm2graph.from_coords := from_coords;
             Osm2graph.to_coords := to_coords;
             Osm2graph.length_m := length_m;
             Osm2graph.length_km := length_m / 1000;
             Osm2graph.street_name :=
               get_default (attr_name edge) "Unnamed"%string;
             Osm2graph.highway_type :=
               get_default (attr_highway edge) "Unknown"%string |}
            :: segs)))))).
Proof. reflexivity. Qed.

Lemma coords_of_cons (g : MultiDiGraph) (n : Node) (route : list Node) :
  Osm2graph.coords_of g (n :: route)
  = rbind (Osm2graph.node_coords g n) (fun c =>
    rbind (Osm2graph.coords_of g route) (fun cs => Ok (c :: cs))).
Proof. reflexivity. Qed.

(** Where the lengths and the coordinates of a route could be read, the
    segments can be built. *)
Lemma segments_from_ok (g : MultiDiGraph) (route : list Node) :
  forall (i : Z) (ls : list Q) (cs : list (Q * Q)),
    Osm2graph.edge_lengths g route = Ok ls ->
    Osm2graph.coords_of g route = Ok cs ->
    exists segs : list Osm2graph.Segment,
      Osm2graph.segments_from g i route = Ok segs
      /\ map Osm2graph.length_m segs = ls
      /\ map (fun s => (Osm2graph.from_node s, Osm2graph.to_node s)) segs
         = Osm2graph.route_pairs route
      /\ map Osm2graph.segment segs
         = map (fun k => (i + Z.of_nat k)%Z) (seq 1 (List.length segs))
      /\ Forall (fun s => Osm2graph.length_km s = Osm2graph.length_m s / 1000)
           segs.
Proof.
  induction route as [| u route IH]; intros i ls cs El Ec.
  - injection El as <-. exists []. repeat split; constructor.
  - destruct route as [| v route].
    + injection El as <-. exists []. repeat split; constructor.
    + rewrite edge_lengths_cons in El. unfold Osm2graph.edge_length in El.
      destruct (Osm2graph.edge_data g u v) as [d | e] eqn:Ed;
        [| discriminate].
      cbn [rbind] in El.
      destruct (getattr (attr_length d)) as [l | e] eqn:Ea; [| discriminate].
      cbn [rbind] in El.
      destruct (Osm2graph.edge_lengths g (v :: route)) as [ls' | e] eqn:El';
        [| discriminate].
      injection El as <-.
      rewrite coords_of_cons in Ec.
      destruct (Osm2graph.node_coords g u) as [cu | e] eqn:Eu;
        [| discriminate].
      cbn [rbind] in Ec.
      destruct (Osm2graph.coords_of g (v :: route)) as [cs' | e] eqn:Ec';
        [| discriminate].
      assert (Ev : exists cv, Osm2graph.node_coords g v = Ok cv).
      { rewrite coords_of_cons in Ec'.
        destruct (Osm2graph.node_coords g v) as [cv | e];
          [eexists; reflexivity | discriminate]. }
      destruct Ev as [cv Ev].
      destruct (IH (i + 1)%Z ls' cs' eq_refl eq_refl)
        as [segs [Hs [Hl [Hp [Hn Hk]]]]].
      rewrite segments_from_cons, Ed. cbn [rbind].
      rewrite Eu. cbn [rbind]. rewrite Ev. cbn [rbind].
      rewrite Ea. cbn [rbind]. rewrite Hs. cbn [rbind].
      eexists. split; [reflexivity |].
      cbn [map Osm2graph.length_m Osm2graph.from_node Osm2graph.to_node
             Osm2graph.segment Osm2graph.length_km List.length].
      split; [rewrite Hl; reflexivity |].
      split; [rewrite Hp; reflexivity |].
      split.
      * rewrite Hn. cbn [seq map]. f_equal.
        rewrite <- (seq_shift (List.length segs) 1), map_map.
        apply map_ext. intro k. lia.
      * constructor; [reflexivity | exact Hk].
Qed.

(** X13.  [get_route_details] cannot fail on a result that
    [calculate_shortest_path] returned for the same graph: it gives one
    segment per edge of the route, numbered from 1, joining the nodes in
    route order, and the segment lengths add up to [distance_meters]. *)
Theorem get_route_details_after_query
    (self : Osm2graph.ShortestPathGenerator)
    (origin dest : Q * Q) (weight : string) (res : Osm2graph.PathResults) :
  Osm2graph.calculate_shortest_path self origin dest weight = Ok (Some res) ->
  exists segments : list Osm2graph.Segment,
    Osm2graph.get_route_details self (Some res) = Ok (Some segments)
    /\ Z.of_nat (List.length segments) = Osm2graph.num_edges res
    /\ map (fun s => (Osm2graph.from_node s, Osm2graph.to_node s)) segments
       = Osm2graph.route_edges res
    /\ map Osm2graph.segment segments
       = map Z.of_nat (seq 1 (List.length segments))
    /\ sum (map Osm2graph.length_m segments) = Osm2graph.distance_meters res
    /\ Forall (fun s => Osm2graph.length_km s = Osm2graph.length_m s / 1000)
         segments.
Proof.
  intro H.
  destruct (calculate_shortest_path_some self origin dest weight res H)
    as [ls [cs [_ [_ [_ [El [Ec Hres]]]]]]].
  destruct (segments_from_ok (Osm2graph.G self) (Osm2graph.route_nodes res)
              0%Z ls cs El Ec) as [segs [Hs [Hl [Hp [Hn Hk]]]]].
  exists segs. unfold Osm2graph.get_route_details. rewrite Hs. cbn [rbind].
  split; [reflexivity |].
  rewrite Hres. cbn [Osm2graph.num_edges Osm2graph.route_edges
                       Osm2graph.distance_meters].
  split.
  { rewrite <- Hp, length_map. reflexivity. }
  split; [exact Hp |].
  split; [rewrite Hn; apply map_ext; intro k; lia |].
  split; [rewrite Hl; reflexivity | exact Hk].
Qed.

Lemma nth_error_last {A} (l : list A) (d : A) :
  l <> [] -> nth_error l (List.length l - 1) = Some (List.last l d).
Proof.
  induction l as [| a l IH]; [congruence |]. intros _.
  destruct l as [| b l]; [reflexivity |].
  replace (List.length (a :: b :: l) - 1)%nat
    with (S (List.length (b :: l) - 1)) by (cbn [List.length]; lia).
  change (nth_error (b :: l) (List.length (b :: l) - 1)
          = Some (List.last (b :: l) d)).
  apply IH. discriminate.
Qed.

(** [l[-1]] on a list that is not empty is its last element. *)
Lemma list_getitem_last {A} (l : list A) (d : A) :
  l <> [] -> list_getitem l (-1) = Ok (List.last l d).
Proof.
  intro H. unfold list_getitem.
  assert (Hlen : (0 < List.length l)%nat)
    by (destruct l; [congruence | cbn; lia]).
  change (-1 <? 0)%Z with true. cbv iota.
  destruct (-1 + Z.of_nat (List.length l) <? 0)%Z eqn:E;
    [apply Z.ltb_lt in E; lia |].
  replace (Z.to_nat (-1 + Z.of_nat (List.length l)))
    with (List.length l - 1)%nat by lia.
  rewrite (nth_error_last l d H). reflexivity.
Qed.


End RouteDetailsExtras.

(** The query along the line, and what follows from it. *)
Lemma line_query :
  Osm2graph.calculate_shortest_path line_paths (33.79, -84.388)
    (33.775, -84.388) "length" = Ok (Some line_result).
Proof. reflexivity. Qed.

Lemma calculate_shortest_path_consistent_witness :
  Osm2graph.origin_node line_result
  = Networkx.nearest_nodes (Osm2graph.G line_paths) (-84.388) 33.79
  /\ Osm2graph.num_edges line_result
     = Z.of_nat (List.length (Osm2graph.route_nodes line_result) - 1).
Proof.
  pose proof (calculate_shortest_path_consistent line_paths (33.79, -84.388)
                (33.775, -84.388) "length" line_result line_query)
    as [Ho [_ [_ [_ [He _]]]]].
  split; [exact Ho | exact He].
Defined.

Lemma get_route_details_after_query_witness :
  exists segments : list Osm2graph.Segment,
    Osm2graph.get_route_details line_paths (Some line_result)
    = Ok (Some segments)
    /\ Builtins.sum (map Osm2graph.length_m segments)
       = Osm2graph.distance_meters line_result.
Proof.
  destruct (get_route_details_after_query line_paths (33.79, -84.388)
              (33.775, -84.388) "length" line_result line_query)
    as [segments [Hd [_ [_ [_ [Hs _]]]]]].
  exists segments. split; [exact Hd | exact Hs].
Defined.


(** * mock/mockTrackGenerator.py: one vehicle's trajectory *)

Section TrajectoryExtras.

Import Builtins Networkx.

Context `{R : Routing} `{Rnd : MockTrackGenerator.Random}.

Variable self : MockTrackGenerator.VehicleTrajectoryGenerator.
Variable vehicle_id : Z.
Variable path : list Node.
Variable path_distances : list Q.
Variables velocity_ms max_travel_duration rest_duration sample_interval : Q.
Variable total_distance : Q.

Local Abbreviation body :=
  (MockTrackGenerator.loop_body self vehicle_id path path_distances
     velocity_ms max_travel_duration rest_duration sample_interval).

Local Abbreviation loop fuel :=
  (MockTrackGenerator.while_loop fuel self vehicle_id path path_distances
     velocity_ms max_travel_duration rest_duration sample_interval
     total_distance).

(** What one pass of the loop does to the variables. *)
Lemma loop_body_ok (st st' : MockTrackGenerator.LoopState) :
  body st = Ok st' ->
  exists r : MockTrackGenerator.GpsRecord,
    MockTrackGenerator.records st' = MockTrackGenerator.records st ++ [r]
    /\ MockTrackGenerator.vehicle_id r = vehicle_id
    /\ MockTrackGenerator.velocity_kmh r
       = velocity_ms
         * MockTrackGenerator.uniform (S (S (MockTrackGenerator.calls st)))
             0.7 1.3
         * 3.6
    /\ MockTrackGenerator.datetime r
       = (if Qle_bool max_travel_duration
               (MockTrackGenerator.travel_time_minutes st)
          then MockTrackGenerator.current_time st + 60 * rest_duration
          else MockTrackGenerator.current_time st)
    /\ MockTrackGenerator.current_time st'
       = MockTrackGenerator.datetime r + sample_interval
    /\ MockTrackGenerator.current_distance st'
       = MockTrackGenerator.current_distance st
         + velocity_ms
           * MockTrackGenerator.uniform (S (S (MockTrackGenerator.calls st)))
               0.7 1.3
           * sample_interval
    /\ MockTrackGenerator.calls st' = S (S (S (MockTrackGenerator.calls st))).
Proof.
  unfold MockTrackGenerator.loop_body.
  destruct (MockTrackGenerator.position self path path_distances
              (MockTrackGenerator.current_distance st)) as [p | e];
    [| discriminate].
  cbn [rbind]. intro H. injection H as <-.
  eexists. cbn. repeat (split; [reflexivity |]). reflexivity.
Qed.

Lemma loop_unfold (fuel : nat) (st : MockTrackGenerator.LoopState) :
  loop (S fuel) st
  = if lt (MockTrackGenerator.current_distance st) total_distance then
      match body st with
      | Ok st' => loop fuel st'
      | Raise e => Some (Raise e)
      end
    else Some (Ok st).
Proof. reflexivity. Qed.

Lemma loop_zero (st : MockTrackGenerator.LoopState) :
  loop O st
  = if lt (MockTrackGenerator.current_distance st) total_distance then None
    else Some (Ok st).
Proof. reflexivity. Qed.

(** More fuel does not change a loop that has ended. *)
Lemma loop_more_fuel (fuel extra : nat) (st : MockTrackGenerator.LoopState)
    (r : result MockTrackGenerator.LoopState) :
  loop fuel st = Some r -> loop (extra + fuel) st = Some r.
Proof.
  revert st. induction fuel as [| fuel IH]; intros st H.
  - rewrite loop_zero in H. rewrite Nat.add_0_r.
    destruct extra; [rewrite loop_zero | rewrite loop_unfold];
      destruct (lt (MockTrackGenerator.current_distance st) total_distance);
      try discriminate; exact H.
  - rewrite Nat.add_succ_r. rewrite loop_unfold in *.
    destruct (lt (MockTrackGenerator.current_distance st) total_distance);
      [| exact H].
    destruct (body st) as [st' | e]; [apply IH; exact H | exact H].
Qed.

(** The loop ends as soon as the distance still to cover fits into the
    passes left, each of which covers at least [step]. *)
Lemma loop_ends (step : Q) :
  0 < step ->
  (forall k, step
             <= velocity_ms * MockTrackGenerator.uniform k 0.7 1.3
                * sample_interval) ->
  forall (fuel : nat) (st : MockTrackGenerator.LoopState),
    total_distance - MockTrackGenerator.current_distance st
    <= inject_Z (Z.of_nat fuel) * step ->
    loop fuel st <> None.
Proof.
  intros Hstep Hk. induction fuel as [| fuel IH]; intros st Hd.
  - rewrite loop_zero.
    destruct (lt (MockTrackGenerator.current_distance st) total_distance)
      eqn:E; [| discriminate].
    apply lt_iff in E. change (inject_Z (Z.of_nat 0)) with 0 in Hd. lra.
  - rewrite loop_unfold.
    destruct (lt (MockTrackGenerator.current_distance st) total_distance);
      [| discriminate].
    destruct (body st) as [st' | e] eqn:Eb; [| discriminate].
    apply IH. destruct (loop_body_ok st st' Eb)
      as [r [_ [_ [_ [_ [_ [Hcd _]]]]]]].
    rewrite Hcd.
    specialize (Hk (S (S (MockTrackGenerator.calls st)))).
    rewrite Nat2Z.inj_succ, <- Z.add_1_r, inject_Z_plus in Hd.
    change (inject_Z 1) with 1 in Hd. lra.
Qed.

(** Without progress the loop never ends normally. *)
Lemma loop_stalls :
  sample_interval == 0 \/ velocity_ms == 0 ->
  forall (fuel : nat) (st : MockTrackGenerator.LoopState),
    MockTrackGenerator.current_distance st < total_distance ->
    forall st', loop fuel st <> Some (Ok st').
Proof.
  intros Hz. induction fuel as [| fuel IH]; intros st Hd st'.
  - rewrite loop_zero. apply lt_iff in Hd. rewrite Hd. discriminate.
  - rewrite loop_unfold. pose proof Hd as Hd'. apply lt_iff in Hd'.
    rewrite Hd'.
    destruct (body st) as [st1 | e] eqn:Eb; [| discriminate].
    apply IH. destruct (loop_body_ok st st1 Eb)
      as [r [_ [_ [_ [_ [_ [Hcd _]]]]]]].
    rewrite Hcd.
    assert (E : velocity_ms
                * MockTrackGenerator.uniform
                    (S (S (MockTrackGenerator.calls st))) 0.7 1.3
                * sample_interval == 0).
    { destruct Hz as [Hz | Hz]; rewrite Hz; ring. }
    rewrite E. lra.
Qed.

(** What the loop has done when it ends: the rows it appended, all of this
    vehicle, three calls to [random] per row, and, when rest and sample
    interval are not negative, time stamps at least one sample interval
    apart. *)
Lemma loop_invariant (fuel : nat) :
  forall st st' : MockTrackGenerator.LoopState,
    loop fuel st = Some (Ok st') ->
    exists new : list MockTrackGenerator.GpsRecord,
      MockTrackGenerator.records st' = MockTrackGenerator.records st ++ new
      /\ MockTrackGenerator.calls st'
         = (3 * List.length new + MockTrackGenerator.calls st)%nat
      /\ Forall
           (fun r =>
              MockTrackGenerator.vehicle_id r = vehicle_id
              /\ exists k,
                   MockTrackGenerator.velocity_kmh r
                   = velocity_ms * MockTrackGenerator.uniform k 0.7 1.3 * 3.6)
           new
      /\ ~ MockTrackGenerator.current_distance st' < total_distance
      /\ (new = [] ->
          MockTrackGenerator.current_time st'
          = MockTrackGenerator.current_time st)
      /\ (0 <= rest_duration -> 0 <= sample_interval ->
          Forall (fun r => MockTrackGenerator.current_time st
                           <= MockTrackGenerator.datetime r) new
          /\ MockTrackGenerator.current_time st
             <= MockTrackGenerator.current_time st'
          /\ spaced sample_interval
               (map MockTrackGenerator.datetime new
                  ++ [MockTrackGenerator.current_time st'])).
Proof.
  induction fuel as [| fuel IH]; intros st st' H.
  - rewrite loop_zero in H.
    destruct (lt (MockTrackGenerator.current_distance st) total_distance)
      eqn:E; [discriminate |].
    injection H as <-. exists []. rewrite app_nil_r.
    apply lt_false_iff in E.
    split; [reflexivity |]. split; [reflexivity |]. split; [constructor |].
    split; [lra |]. split; [reflexivity |]. intros _ _.
    split; [constructor |]. split; [apply Qle_refl | exact I].
  - rewrite loop_unfold in H.
    destruct (lt (MockTrackGenerator.current_distance st) total_distance)
      eqn:E.
    + destruct (body st) as [st1 | e] eqn:Eb; [| discriminate].
      destruct (loop_body_ok st st1 Eb)
        as [r [Hrec [Hid [Hv [Ht [Hct [_ Hcalls]]]]]]].
      destruct (IH st1 st' H)
        as [new [Hrecs [Hc [Hall [Hend [_ Htime]]]]]].
      exists (r :: new).
      split; [rewrite Hrecs, Hrec, <- app_assoc; reflexivity |].
      split; [rewrite Hc, Hcalls; cbn [List.length]; lia |].
      split.
      { constructor; [| exact Hall].
        split; [exact Hid | eexists; exact Hv]. }
      split; [exact Hend |]. split; [discriminate |].
      intros Hrest Hsi. destruct (Htime Hrest Hsi) as [Hge [Hle Hsp]].
      assert (Hr : MockTrackGenerator.current_time st
                   <= MockTrackGenerator.datetime r).
      { rewrite Ht.
        destruct (Qle_bool max_travel_duration
                    (MockTrackGenerator.travel_time_minutes st)); lra. }
      split.
      { constructor; [exact Hr |].
        refine (Forall_impl _ _ Hge). intros r' H3.
        rewrite Hct in H3. cbv beta. lra. }
      split; [rewrite Hct in Hle; lra |].
      cbn [map app]. destruct new as [| r' new'].
      * cbn [map app spaced]. split; [rewrite Hct in Hle; lra | exact I].
      * cbn [map app] in *. cbn [spaced]. split; [| exact Hsp].
        inversion Hge as [| ? ? H3 _]; subst.
        rewrite Hct in H3. exact H3.
    + injection H as <-. exists []. rewrite app_nil_r.
      apply lt_false_iff in E.
      split; [reflexivity |]. split; [reflexivity |]. split; [constructor |].
      split; [lra |]. split; [reflexivity |]. intros _ _.
      split; [constructor |]. split; [apply Qle_refl | exact I].
Qed.

End TrajectoryExtras.

Section TrajectoryTheorems.

Import Builtins Networkx.

Context `{Rnd : MockTrackGenerator.Random}.

Variable self : MockTrackGenerator.VehicleTrajectoryGenerator.
Variable vehicle_id : Z.
Variable path : list Node.
Variable path_distances : list Q.
Variables velocity departure_time : Q.
Variables max_travel_duration rest_duration sample_interval : Q.

Local Abbreviation trajectory fuel start :=
  (MockTrackGenerator._generate_single_trajectory fuel self vehicle_id path
     path_distances velocity departure_time max_travel_duration rest_duration
     sample_interval start).

Local Abbreviation loop total fuel st :=
  (MockTrackGenerator.while_loop fuel self vehicle_id path path_distances
     (velocity / 3.6) max_travel_duration rest_duration sample_interval
     total st).

Local Abbreviation initial start :=
  {| MockTrackGenerator.records := [];
     MockTrackGenerator.current_time := departure_time;
     MockTrackGenerator.current_distance := 0;
     MockTrackGenerator.travel_time_minutes := 0;
     MockTrackGenerator.calls := start |}.

Lemma trajectory_unfold (fuel start : nat) (total : Q) :
  list_getitem path_distances (-1) = Ok total ->
  trajectory fuel start
  = match loop total fuel (initial start) with
    | None => None
    | Some (Raise e) => Some (Raise e)
    | Some (Ok st) =>
        Some
          (rbind (list_getitem path (-1)) (fun dest_node =>
           rbind (MockTrackGenerator.node_y (MockTrackGenerator.G self)
                    dest_node) (fun dest_lat =>
           rbind (MockTrackGenerator.node_x (MockTrackGenerator.G self)
                    dest_node) (fun dest_lng =>
             Ok (MockTrackGenerator.records st
                   ++ [{| MockTrackGenerator.vehicle_id := vehicle_id;
                          MockTrackGenerator.lat := dest_lat;
                          MockTrackGenerator.lng := dest_lng;
                          MockTrackGenerator.datetime :=
                            MockTrackGenerator.current_time st;
                          MockTrackGenerator.velocity_kmh := 0 |}],
                 MockTrackGenerator.calls st)))))
    end.
Proof.
  intro H. unfold MockTrackGenerator._generate_single_trajectory.
  rewrite H. reflexivity.
Qed.

(** A trajectory that was returned, taken apart. *)
Lemma trajectory_rows (fuel start : nat)
    (rows : list MockTrackGenerator.GpsRecord) (calls' : nat) :
  trajectory fuel start = Some (Ok (rows, calls')) ->
  exists (total : Q) (st : MockTrackGenerator.LoopState)
         (dest : Node) (y x : Q),
    list_getitem path_distances (-1) = Ok total
    /\ loop total fuel (initial start) = Some (Ok st)
    /\ list_getitem path (-1) = Ok dest
    /\ MockTrackGenerator.node_y (MockTrackGenerator.G self) dest = Ok y
    /\ MockTrackGenerator.node_x (MockTrackGenerator.G self) dest = Ok x
    /\ rows
       = MockTrackGenerator.records st
         ++ [{| MockTrackGenerator.vehicle_id := vehicle_id;
                MockTrackGenerator.lat := y;
                MockTrackGenerator.lng := x;
                MockTrackGenerator.datetime :=
                  MockTrackGenerator.current_time st;
                MockTrackGenerator.velocity_kmh := 0 |}]
    /\ calls' = MockTrackGenerator.calls st.
Proof.
  destruct (list_getitem path_distances (-1)) as [total | e] eqn:Et.
  - rewrite (trajectory_unfold fuel start total Et).
    destruct (loop total fuel (initial start)) as [[st | e] |] eqn:El;
      try discriminate.
    destruct (list_getitem path (-1)) as [dest | e] eqn:Ed;
      [| discriminate].
    cbn [rbind].
    destruct (MockTrackGenerator.node_y (MockTrackGenerator.G self) dest)
      as [y | e] eqn:Ey; [| discriminate].
    cbn [rbind].
    destruct (MockTrackGenerator.node_x (MockTrackGenerator.G self) dest)
      as [x | e] eqn:Ex; [| discriminate].
    cbn [rbind]. intro H. injection H as <- <-.
    exists total, st, dest, y, x. repeat (split; [reflexivity || assumption |]).
    reflexivity.
  - unfold MockTrackGenerator._generate_single_trajectory. rewrite Et.
    discriminate.
Qed.

(** X15.  With a sample interval of zero, or a velocity of zero, and a
    route of positive length the loop makes no progress: however many
    passes are allowed, the call does not return a trajectory. *)
Theorem trajectory_never_returns_without_progress
    (fuel start : nat) (total : Q)
    (rows : list MockTrackGenerator.GpsRecord) (calls' : nat) :
  list_getitem path_distances (-1) = Ok total ->
  0 < total ->
  sample_interval == 0 \/ velocity == 0 ->
  trajectory fuel start <> Some (Ok (rows, calls')).
Proof.
  intros Ht Hpos Hz H.
  destruct (trajectory_rows fuel start rows calls' H)
    as [total' [st [_ [_ [_ [Ht' [Hl _]]]]]]].
  rewrite Ht in Ht'. injection Ht' as <-.
  refine (loop_stalls self vehicle_id path path_distances (velocity / 3.6)
            max_travel_duration rest_duration sample_interval total _
            fuel (initial start) Hpos st Hl).
  destruct Hz as [Hz | Hz]; [left; exact Hz | right].
  rewrite Hz. reflexivity.
Qed.


(** X17.  A trajectory that is returned always ends with the destination
    row: the last node of the path at exactly its stored coordinates (no
    noise), with velocity 0.  Every row carries the vehicle's id, and three
    calls to [random] were made per sampled row.  When the route has no
    positive length the destination row is the only one, stamped with the
    departure time. *)
Theorem trajectory_shape (fuel start : nat)
    (rows : list MockTrackGenerator.GpsRecord) (calls' : nat) :
  trajectory fuel start = Some (Ok (rows, calls')) ->
  exists (sampled : list MockTrackGenerator.GpsRecord)
         (final : MockTrackGenerator.GpsRecord) (dest : Node) (total : Q),
    rows = sampled ++ [final]
    /\ calls' = (3 * List.length sampled + start)%nat
    /\ Forall (fun r => MockTrackGenerator.vehicle_id r = vehicle_id) rows
    /\ list_getitem path (-1) = Ok dest
    /\ MockTrackGenerator.node_y (MockTrackGenerator.G self) dest
       = Ok (MockTrackGenerator.lat final)
    /\ MockTrackGenerator.node_x (MockTrackGenerator.G self) dest
       = Ok (MockTrackGenerator.lng final)
    /\ MockTrackGenerator.velocity_kmh final = 0
    /\ list_getitem path_distances (-1) = Ok total
    /\ (total <= 0 ->
        sampled = [] /\ MockTrackGenerator.datetime final = departure_time).
Proof.
  intro H.
  destruct (trajectory_rows fuel start rows calls' H)
    as [total [st [dest [y [x [Ht [Hl [Hd [Hy [Hx [Hrows Hcalls]]]]]]]]]]].
  destruct (loop_invariant self vehicle_id path path_distances
              (velocity / 3.6) max_travel_duration rest_duration
              sample_interval total fuel (initial start) st Hl)
    as [new [Hrecs [Hc [Hall [_ [Hnil _]]]]]].
  cbn [MockTrackGenerator.records MockTrackGenerator.calls app] in Hrecs, Hc.
  eexists new, _, dest, total.
  split; [rewrite Hrows, Hrecs; reflexivity |].
  split; [rewrite Hcalls; exact Hc |].
  split.
  { rewrite Hrows, Hrecs. apply Forall_app. split.
    - refine (Forall_impl _ _ Hall). intros r [Hr _]. exact Hr.
    - constructor; [reflexivity | constructor]. }
  split; [exact Hd |]. split; [exact Hy |]. split; [exact Hx |].
  split; [reflexivity |]. split; [exact Ht |].
  intro Hle.
  assert (Hst : st = initial start).
  { destruct fuel as [| fuel'].
    - rewrite (loop_zero self vehicle_id path path_distances (velocity / 3.6)
                 max_travel_duration rest_duration sample_interval total)
        in Hl.
      apply lt_false_iff in Hle.
      cbn [MockTrackGenerator.current_distance] in Hl. rewrite Hle in Hl.
      injection Hl as <-. reflexivity.
    - rewrite (loop_unfold self vehicle_id path path_distances
                 (velocity / 3.6) max_travel_duration rest_duration
                 sample_interval total) in Hl.
      apply lt_false_iff in Hle.
      cbn [MockTrackGenerator.current_distance] in Hl. rewrite Hle in Hl.
      injection Hl as <-. reflexivity. }
  subst st. cbn [MockTrackGenerator.records app] in Hrecs.
  split; [symmetry; exact Hrecs | reflexivity].
Qed.



End TrajectoryTheorems.

(** The run on the line: five rows after four passes. *)
Lemma line_run_returned :
  MockTrackGenerator._generate_single_trajectory 5 line_generator 7
    [1%Z; 2%Z; 3%Z] [0; 100; 150] 36 0 45 10 5 0
  = Some (Ok (fst line_run, snd line_run)).
Proof. vm_compute. reflexivity. Qed.

Lemma steady_random_bounds (k : nat) :
  0.7 <= MockTrackGenerator.uniform k 0.7 1.3 <= 1.3.
Proof.
  unfold MockTrackGenerator.uniform, steady_random.
  destruct (Nat.even k); split; discriminate.
Qed.

(** A sample interval of 0 on the line. *)
Lemma trajectory_never_returns_without_progress_witness :
  0 < 150
  /\ MockTrackGenerator._generate_single_trajectory 9 line_generator 7
       [1%Z; 2%Z; 3%Z] [0; 100; 150] 36 0 45 10 0 0
     <> Some (Ok ([], 0%nat)).
Proof.
  split; [reflexivity |].
  apply (trajectory_never_returns_without_progress line_generator 7
           [1%Z; 2%Z; 3%Z] [0; 100; 150] 36 0 45 10 0 9 0 150 [] 0%nat).
  - reflexivity.
  - reflexivity.
  - left. reflexivity.
Defined.


Lemma trajectory_shape_witness :
  exists (sampled : list MockTrackGenerator.GpsRecord)
         (final : MockTrackGenerator.GpsRecord),
    fst line_run = sampled ++ [final]
    /\ snd line_run = (3 * List.length sampled + 0)%nat
    /\ MockTrackGenerator.velocity_kmh final = 0.
Proof.
  destruct (trajectory_shape line_generator 7 [1%Z; 2%Z; 3%Z] [0; 100; 150]
              36 0 45 10 5 5 0 (fst line_run) (snd line_run)
              line_run_returned)
    as [sampled [final [dest [total [H1 [H2 [_ [_ [_ [_ [H3 _]]]]]]]]]]].
  exists sampled, final. split; [exact H1 |]. split; [exact H2 | exact H3].
Defined.



(** * mock/mockTrackGenerator.py: where a vehicle is put *)

Section PositionExtras.

Import Builtins Networkx.

Lemma searchsorted_range (a : list Q) (v : Q) :
  (0 <= MockTrackGenerator.searchsorted a v <= Z.of_nat (List.length a))%Z.
Proof.
  induction a as [| x a IH]; cbn [MockTrackGenerator.searchsorted List.length];
    [lia |].
  destruct (lt x v); lia.
Qed.

(** Every entry before the index found is below the value. *)
Lemma searchsorted_before (a : list Q) (v : Q) :
  forall (j : nat) (x : Q),
    (Z.of_nat j < MockTrackGenerator.searchsorted a v)%Z ->
    nth_error a j = Some x -> x < v.
Proof.
  induction a as [| y a IH]; intros j x Hj Hx.
  - destruct j; discriminate.
  - cbn [MockTrackGenerator.searchsorted] in Hj.
    destruct (lt y v) eqn:E; [| lia].
    destruct j as [| j].
    + injection Hx as <-. apply lt_iff. exact E.
    + apply (IH j x); [lia | exact Hx].
Qed.

(** The entry at the index found is not below the value. *)
Lemma searchsorted_at (a : list Q) (v x : Q) :
  nth_error a (Z.to_nat (MockTrackGenerator.searchsorted a v)) = Some x ->
  v <= x.
Proof.
  induction a as [| y a IH]; cbn [MockTrackGenerator.searchsorted].
  - discriminate.
  - destruct (lt y v) eqn:E.
    + pose proof (searchsorted_range a v) as Hr.
      replace (Z.to_nat (1 + MockTrackGenerator.searchsorted a v))
        with (S (Z.to_nat (MockTrackGenerator.searchsorted a v))) by lia.
      exact IH.
    + intro H. injection H as <-. apply lt_false_iff. exact E.
Qed.

Lemma list_getitem_nonneg {A} (l : list A) (i : Z) (x : A) :
  (0 <= i)%Z ->
  list_getitem l i = Ok x <-> nth_error l (Z.to_nat i) = Some x.
Proof.
  intro Hi. unfold list_getitem.
  destruct (i <? 0)%Z eqn:E; [apply Z.ltb_lt in E; lia |].
  rewrite E. destruct (nth_error l (Z.to_nat i)) as [a |].
  - split; intro H; injection H as <-; reflexivity.
  - split; discriminate.
Qed.

Lemma list_getitem_In {A} (l : list A) (i : Z) (x : A) :
  list_getitem l i = Ok x -> In x l.
Proof.
  unfold list_getitem.
  destruct ((if (i <? 0)%Z then (i + Z.of_nat (List.length l))%Z else i) <? 0)%Z;
    [discriminate |].
  destruct (nth_error l _) as [a |] eqn:E; [| discriminate].
  intro H. injection H as <-. exact (nth_error_In _ _ E).
Qed.

(** A value that does not exceed the last entry is found inside the
    list. *)
Lemma searchsorted_inside (a : list Q) (v total : Q) :
  list_getitem a (-1) = Ok total -> v <= total ->
  (MockTrackGenerator.searchsorted a v < Z.of_nat (List.length a))%Z.
Proof.
  intros Hlast Hv.
  pose proof (searchsorted_range a v) as Hr.
  destruct (Z.eq_dec (MockTrackGenerator.searchsorted a v)
              (Z.of_nat (List.length a))) as [E | E]; [| lia].
  exfalso.
  assert (Hne : a <> []) by (intro Ha; subst a; discriminate Hlast).
  rewrite (list_getitem_last a 0 Hne) in Hlast. injection Hlast as Hlast.
  assert (Hlen : (0 < List.length a)%nat)
    by (destruct a; [congruence | cbn; lia]).
  pose proof (searchsorted_before a v (List.length a - 1) total
                ltac:(lia) ltac:(rewrite <- Hlast; apply nth_error_last; exact Hne))
    as Hlt.
  lra.
Qed.

(** A point between two values. *)
Lemma between_convex (y1 y2 ratio : Q) :
  0 <= ratio -> ratio <= 1 ->
  Qmin y1 y2 <= y1 + ratio * (y2 - y1)
  /\ y1 + ratio * (y2 - y1) <= Qmax y1 y2.
Proof.
  intros H0 H1.
  destruct (Qlt_le_dec y2 y1) as [H | H].
  - rewrite (Q.min_r y1 y2) by lra. rewrite (Q.max_l y1 y2) by lra.
    assert (0 <= ratio * (y1 - y2)) by (apply Qmult_le_0_compat; lra).
    assert (0 <= (1 - ratio) * (y1 - y2)) by (apply Qmult_le_0_compat; lra).
    split; lra.
  - rewrite (Q.min_l y1 y2) by lra. rewrite (Q.max_r y1 y2) by lra.
    assert (0 <= ratio * (y2 - y1)) by (apply Qmult_le_0_compat; lra).
    assert (0 <= (1 - ratio) * (y2 - y1)) by (apply Qmult_le_0_compat; lra).
    split; lra.
Qed.


End PositionExtras.

